(** * drishti-hci: the offline face-tracking driver (src/app/hci/hci.cpp)

    A shallow embedding of [drishti_main], of the [GLResource] helper and of
    the [render] callback, as state-passing code that records every call it
    makes on an external collaborator (frame source, GL context or window,
    detector, display, recording sink, semaphore, file system, logger) in a
    trace of events.  The collaborators themselves are not part of the
    translation unit; their answers are read from an environment record.
    The render loop takes fuel, since it ends only when the source returns
    an empty frame; the wait on the semaphore takes a schedule of the main
    thread and of the sink's finalizer. *)

From stdpp Require Import gmap strings list.
From Stdlib Require Import ZArith NArith Lia Sorted.

Local Open Scope Z_scope.

(** ** Data *)

(** A C++ [float]: only carried from the command line into the detector
    settings, so it is kept as its IEEE-754 binary32 bit pattern. *)
Definition float := Z.

(** [cv::Mat]: dimensions and the pixel buffer ([[]] is the null buffer). *)
Record Mat := mkMat { rows : Z; cols : Z; data : list Z }.

(** [cv::Mat::empty()]: no buffer, or no element. *)
Definition Mat_empty (m : Mat) : bool :=
  match data m with
  | [] => true
  | _ :: _ => rows m * cols m =? 0
  end.

(** [VideoSourceCV::Frame]: the image and the accessors [cols()], [rows()]. *)
Record Frame := mkFrame { image : Mat; frame_cols : Z; frame_rows : Z }.

Definition no_frame : Frame := mkFrame (mkMat 0 0 []) 0 0.

(** [TEXTURE_FORMAT], selected by the ANDROID macro. *)
Inductive TextureFormat := GL_RGBA | GL_BGRA.

Definition TEXTURE_FORMAT (android : bool) : TextureFormat :=
  if android then GL_RGBA else GL_BGRA.

(** The command line as left by [options.parse]: [argc], whether the help
    option was counted, and the variables bound to the options. *)
Record Args := mkArgs {
  argc : Z;
  help : bool;
  sInput : string;
  sOutput : string;
  doWindow : bool;
  doMovie : bool;
  cascCal : float;
  scale : float;
  sFaceDetector : string;
  sFaceDetectorMean : string;
  sFaceRegressor : string;
  sEyeRegressor : string
}.

(** [GLResource]: which of its two pointers is set. *)
Record GLResource := mkGL { window : bool; context : bool }.

(** The two threads that exist once [sink->end] has been called. *)
Inductive Thread := MainThread | SinkThread.

(** ** Events *)

Inductive Event :=
| EvHelp
| EvLogError (msg : string)
| EvLogInfo (msg : string)
| EvLogMean (m : Mat)
| EvRemove (path : string)
| EvWindowNew (name : string) (w h : Z)
| EvContextNew
| EvVideoNew (path : string)
| EvVideoSetOutputFormat
| EvPull (index : N)
| EvWindowResize (w h : Z)
| EvWindowCurrent
| EvContextCurrent
| EvDetectorNew (crop cal : float) (w h : Z)
| EvSetLetterboxHeight
| EvSetShowMotionAxes (b : bool)
| EvSetShowDetectionScales (b : bool)
| EvSwizzleNew
| EvSourceSet
| EvSinkNew (path ext : string)
| EvSinkSetProperties (w h : Z)
| EvSinkBegin
| EvDispNew
| EvDispInit (w h : Z) (fmt : TextureFormat)
| EvDispSetOutputRenderOrientation
| EvRenderCall
| EvRenderRet (b : bool)
| EvUpload (w h : Z) (fmt : TextureFormat)
| EvDetect (w h : Z) (tex : Z) (fmt : TextureFormat)
| EvDispSetOffset (tx ty : Z)
| EvDispSetDisplayResolution (sx sy : Z)
| EvDispUseTexture (tex : Z)
| EvDispRender
| EvSinkGood (b : bool)
| EvGetOutputPixels
| EvSinkWrite (m : Mat)
| EvWindowPresent
| EvSemaphoreNew (n : N)
| EvSinkEnd
| EvSignal
| EvWaitReleased.

(** ** [std::string] *)

(** [std::string::npos] and [std::size_t] on the 64-bit targets. *)
Definition size_max : N := (2 ^ 64 - 1)%N.
Definition npos : N := size_max.

(** [s.find(pat)]: the position of the first occurrence of [pat] in [s],
    [npos] when there is none. *)
Fixpoint find_from (pat s : string) (pos : N) : N :=
  if String.prefix pat s then pos
  else match s with
       | EmptyString => npos
       | String _ s' => find_from pat s' (pos + 1)%N
       end.

Definition find (s pat : string) : N := find_from pat s 0.

(** [!n] on an unsigned integer. *)
Definition lnot (n : N) : bool := (n =? 0)%N.

(** [s.empty()]. *)
Definition empty_str (s : string) : bool := bool_decide (s = "").

(** [counter++] on a [std::size_t]. *)
Definition incr (c : N) : N := ((c + 1) mod 2 ^ 64)%N.

(** ** The recording sink, as the driver sees it *)

(** The operations of [VideoSinkCV] that [drishti_main] calls, over the
    sink's own state. *)
Class VideoSink (S : Type) := {
  sink_setProperties : Z * Z → S → S;
  sink_begin : S → S;
  sink_good : S → bool;
  sink_write : Mat → S → S;
  sink_end : S → S
}.

(** ** The environment *)

Record Env (S : Type) := mkEnv {
  android : bool;
  (** [drishti::cli::directory::exists(dir, probe)] *)
  dir_writable : string → string → bool;
  (** the frame that the video source returns for an index *)
  video : N → Frame;
  (** [swizzle.getOutputTexId()] after the upload of the frame pulled at an index *)
  swizzle_tex : N → Z;
  (** the texture that the detector returns for that frame *)
  detector_tex : N → Z;
  (** the image that [getOutputPixels] passes to its delegate for that frame *)
  detector_pixels : N → Mat;
  (** [GLWindow::impl.tx, ty, sx, sy] while that frame is rendered *)
  win_impl : N → Z * Z * Z * Z;
  (** [VideoSinkCV::create(filename, ext)], [None] for a null pointer *)
  sink_create : string → string → option S;
  (** the order in which the main thread and the sink's finalizer run
      once [sink->end] has been called *)
  sched : list Thread
}.

Arguments android {S}.
Arguments dir_writable {S}.
Arguments video {S}.
Arguments swizzle_tex {S}.
Arguments detector_tex {S}.
Arguments detector_pixels {S}.
Arguments win_impl {S}.
Arguments sink_create {S}.
Arguments sched {S}.

(** ** Program state *)

(** The file system (the set of existing readable files), the locals of
    [drishti_main] that [render] captures by reference, and the trace. *)
Record State (S : Type) := mkState {
  files : gset string;
  opengl : GLResource;
  counter : N;
  frame : Frame;
  sink : option S;
  display : bool;
  trace : list Event
}.

Arguments mkState {S}.
Arguments files {S}.
Arguments opengl {S}.
Arguments counter {S}.
Arguments frame {S}.
Arguments sink {S}.
Arguments display {S}.
Arguments trace {S}.

Definition initial {S} (fs : gset string) : State S :=
  mkState fs (mkGL false false) 0%N no_frame None false [].

(** How a piece of [drishti_main] ends: it falls through with a value, it
    executes [return status], the main thread is still inside [s.wait()]
    when the schedule ends, or the loop is cut off by the fuel. *)
Inductive Res (A : Type) :=
| Ret (a : A)
| Return (status : Z)
| Blocked
| OutOfFuel.

Arguments Ret {A}.
Arguments Return {A}.
Arguments Blocked {A}.
Arguments OutOfFuel {A}.

Definition M (S A : Type) : Type := State S → Res A * State S.

Global Instance M_ret {S} : MRet (M S) := λ A a st, (Ret a, st).

Global Instance M_bind {S} : MBind (M S) := λ A B f m st,
  match m st with
  | (Ret a, st') => f a st'
  | (Return z, st') => (Return z, st')
  | (Blocked, st') => (Blocked, st')
  | (OutOfFuel, st') => (OutOfFuel, st')
  end.

Definition emit {S} (es : list Event) : M S unit := λ st,
  (Ret (), mkState (files st) (opengl st) (counter st) (frame st) (sink st)
                   (display st) (trace st ++ es)).

Definition get {S} : M S (State S) := λ st, (Ret st, st).

Definition return_ {S A} (status : Z) : M S A := λ st, (Return status, st).

Definition set_files {S} (fs : gset string) : M S unit := λ st,
  (Ret (), mkState fs (opengl st) (counter st) (frame st) (sink st)
                   (display st) (trace st)).

Definition set_opengl {S} (g : GLResource) : M S unit := λ st,
  (Ret (), mkState (files st) g (counter st) (frame st) (sink st)
                   (display st) (trace st)).

Definition set_counter {S} (c : N) : M S unit := λ st,
  (Ret (), mkState (files st) (opengl st) c (frame st) (sink st)
                   (display st) (trace st)).

Definition set_frame {S} (f : Frame) : M S unit := λ st,
  (Ret (), mkState (files st) (opengl st) (counter st) f (sink st)
                   (display st) (trace st)).

Definition set_sink {S} (k : option S) : M S unit := λ st,
  (Ret (), mkState (files st) (opengl st) (counter st) (frame st) k
                   (display st) (trace st)).

Definition set_display {S} (d : bool) : M S unit := λ st,
  (Ret (), mkState (files st) (opengl st) (counter st) (frame st) (sink st)
                   d (trace st)).

(** [drishti::cli::file::exists(path)]. *)
Definition file_exists {S} (path : string) : M S bool := λ st,
  (Ret (bool_decide (path ∈ files st)), st).

(** [remove(path)]. *)
Definition remove {S} (path : string) : M S unit :=
  st ← get; set_files (files st ∖ {[path]});; emit [EvRemove path].

Definition out_of_fuel {S A} : M S A := λ st, (OutOfFuel, st).

Definition blocked {S A} : M S A := λ st, (Blocked, st).

(** ** The driver *)

Section Driver.

Context {S : Type} `{!VideoSink S}.
Variable args : Args.
Variable env : Env S.

(** [checkModel] (the logger argument is the trace). *)
Definition checkModel (sModel description : string) : M S bool :=
  if empty_str sModel then
    emit [EvLogError ("Must specify valid model " +:+ sModel)];;
    mret true
  else
    ex ← file_exists sModel;
    if negb ex then
      emit [EvLogError ("Specified file " +:+ sModel +:+
                        " does not exist or is not readable")];;
      mret true
    else mret false.

(** [for (const auto& c : config) if (checkModel(...)) return 1;] *)
Fixpoint check_models (config : list (string * string)) : M S unit :=
  match config with
  | [] => mret ()
  | (sModel, description) :: rest =>
      bad ← checkModel sModel description;
      if (bad : bool) then return_ 1 else check_models rest
  end.

(** Command line argument error checking, from the help test to the model
    loop. *)
Definition check_arguments : M S unit :=
  (if bool_decide (argc args ≤ 1) || help args
   then emit [EvHelp];; return_ 0 else mret ());;
  (if empty_str (sOutput args)
   then emit [EvLogError "Must specify output directory"];; return_ 1
   else mret ());;
  (if dir_writable env (sOutput args) ".drishti-hci"
   then remove (sOutput args +:+ "/.drishti-hci")
   else emit [EvLogError ("Specified directory " +:+ sOutput args +:+
                          " does not exist or is not writeable")];;
        return_ 1);;
  (if empty_str (sInput args)
   then emit [EvLogError "Must specify input image or list of images"];;
        return_ 1
   else mret ());;
  missing ← (if lnot (find (sInput args) ".test")
             then ex ← file_exists (sInput args); mret (negb ex)
             else mret false);
  (if (missing : bool)
   then emit [EvLogError
                "Specified input file does not exist or is not readable"];;
        return_ 1
   else mret ());;
  check_models [ (sFaceDetector args, "face-detector");
                 (sFaceDetectorMean args, "face-detector-mean");
                 (sFaceRegressor args, "face-regressor");
                 (sEyeRegressor args, "eye-regressor") ].

(** [GLResource::GLResource] in the desktop build (DRISHTI_IS_MOBILE not
    defined; the mobile build has no window option and is the case
    [doWindow = false]). *)
Definition GLResource_new (name : string) (width height : Z) (w : bool)
  : M S unit :=
  if w then emit [EvWindowNew name width height];; set_opengl (mkGL true false)
  else emit [EvContextNew];; set_opengl (mkGL false true).

(** [GLResource::resize]. *)
Definition GLResource_resize (width height : Z) : M S unit :=
  st ← get;
  if window (opengl st) then emit [EvWindowResize width height] else mret ().

(** [GLResource::operator()()]. *)
Definition GLResource_current : M S unit :=
  st ← get;
  if window (opengl st) then emit [EvWindowCurrent]
  else emit [EvContextCurrent].

(** One call of the video source. *)
Definition pull (index : N) : M S Frame :=
  emit [EvPull index];; mret (video env index).

(** From the creation of the GL resource to the test of the first frame. *)
Definition open_video : M S unit :=
  GLResource_new "hci" 640 480 (doWindow args);;
  emit [EvVideoNew (sInput args); EvVideoSetOutputFormat];;
  set_counter 0;;
  st ← get;
  f ← pull (counter st);
  set_frame f;;
  if Mat_empty (image f)
  then emit [EvLogInfo "No frames available in video"];; return_ (-1)
  else mret ().

(** From [opengl.resize] to the creation of the display. *)
Definition configure : M S unit :=
  st ← get;
  let f := frame st in
  GLResource_resize (frame_cols f) (frame_rows f);;
  GLResource_current;;
  emit [EvDetectorNew (scale args) (cascCal args)
                      (cols (image f)) (rows (image f));
        EvSetLetterboxHeight;
        EvSetShowMotionAxes false;
        EvSetShowDetectionScales false;
        EvSwizzleNew;
        EvSourceSet];;
  let filename := sOutput args +:+ "/movie.mov" in
  ex ← file_exists filename;
  (if (ex : bool) then remove filename else mret ());;
  (if doMovie args then
     emit [EvSinkNew filename ".mov"];;
     match sink_create env filename ".mov" with
     | Some k =>
         emit [EvSinkSetProperties (frame_cols f) (frame_rows f);
               EvSinkBegin];;
         set_sink (Some (sink_begin
                           (sink_setProperties (frame_cols f, frame_rows f) k)))
     | None => mret ()
     end
   else mret ());;
  (if doWindow args then
     emit [EvDispNew;
           EvDispInit (cols (image f)) (rows (image f))
                      (TEXTURE_FORMAT (android env));
           EvDispSetOutputRenderOrientation];;
     set_display true
   else mret ()).

(** The delegate built in [render]: it forwards the image to the sink. *)
Definition delegate (m : Mat) : M S unit :=
  st ← get;
  match sink st with
  | Some k => emit [EvSinkWrite m];; set_sink (Some (sink_write m k))
  | None => mret ()
  end.

(** Modelled from the spec: [FaceFinderPainter::getOutputPixels] is not in
    this translation unit; it delivers the most recent output to the
    callback, once, before it returns. *)
Definition getOutputPixels (i : N) (callback : Mat → M S unit) : M S unit :=
  emit [EvGetOutputPixels];; callback (detector_pixels env i).

(** The [render] lambda. *)
Definition render : M S bool :=
  emit [EvRenderCall];;
  st ← get;
  let i := counter st in
  set_counter (incr i);;
  f ← pull i;
  set_frame f;;
  if Mat_empty (image f) then emit [EvRenderRet false];; mret false
  else
    let fmt := TEXTURE_FORMAT (android env) in
    emit [EvLogMean (image f);
          EvUpload (frame_cols f) (frame_rows f) fmt];;
    let texture0 := swizzle_tex env i in
    emit [EvDetect (frame_cols f) (frame_rows f) texture0 fmt];;
    let texture1 := detector_tex env i in
    (if display st then
       let '(tx, ty, sx, sy) := win_impl env i in
       emit [EvDispSetOffset tx ty;
             EvDispSetDisplayResolution sx sy;
             EvDispUseTexture texture1;
             EvDispRender]
     else mret ());;
    match sink st with
    | Some k =>
        emit [EvSinkGood (sink_good k)];;
        if sink_good k then getOutputPixels i delegate else mret ()
    | None => mret ()
    end;;
    emit [EvRenderRet true];;
    mret true.

(** [while(render());] *)
Fixpoint while_render (callback : M S bool) (fuel : nat) : M S unit :=
  match fuel with
  | O => out_of_fuel
  | Datatypes.S n =>
      b ← callback;
      if (b : bool) then while_render callback n else mret ()
  end.

(** Modelled from the spec: [GLWindow::operator()(render)] is not in this
    translation unit; the window's event loop invokes the callback once per
    refresh, presents the result, and ends when the callback returns
    false. *)
Fixpoint GLWindow_run (callback : M S bool) (fuel : nat) : M S unit :=
  match fuel with
  | O => out_of_fuel
  | Datatypes.S n =>
      b ← callback;
      if (b : bool) then emit [EvWindowPresent];; GLWindow_run callback n
      else mret ()
  end.

(** [GLResource::operator()(RenderDelegate&)]. *)
Definition GLResource_run (callback : M S bool) (fuel : nat) : M S unit :=
  st ← get;
  if window (opengl st) then GLWindow_run callback fuel
  else while_render callback fuel.

(** Modelled from the spec: [drishti::core::Semaphore] is not in this
    translation unit.  It is a counter: [signal] adds one, and [wait]
    returns, taking one, only when the counter is positive. *)
Definition Semaphore_signal (n : N) : N := (n + 1)%N.

Definition Semaphore_wait (n : N) : option N :=
  if (0 <? n)%N then Some (n - 1)%N else None.

(** Modelled from the spec: [VideoSinkCV::end] is not in this translation
    unit.  After [end] the sink's finalizer invokes the completion callback
    once, whenever it is scheduled.  [await] is the main thread inside
    [s.wait()] and the finalizer next to it: [n] is the counter of [s], the
    callback is [s.signal()], and [fired] tells whether it has run. *)
Fixpoint await (schedule : list Thread) (n : N) (fired : bool) : M S unit :=
  match schedule with
  | [] => blocked
  | MainThread :: rest =>
      match Semaphore_wait n with
      | Some _ => emit [EvWaitReleased]
      | None => await rest n fired
      end
  | SinkThread :: rest =>
      if fired then await rest n fired
      else emit [EvSignal];; await rest (Semaphore_signal n) true
  end.

(** From [if(sink)] to [return 0]. *)
Definition teardown : M S unit :=
  st ← get;
  match sink st with
  | Some k =>
      let s := 0%N in
      emit [EvSemaphoreNew s];;
      emit [EvSinkEnd];;
      set_sink (Some (sink_end k));;
      await (sched env) s false
  | None => mret ()
  end;;
  return_ 0.

Definition drishti_main (fuel : nat) : M S unit :=
  check_arguments;;
  open_video;;
  configure;;
  GLResource_run render fuel;;
  teardown.

End Driver.

(** ** A recording sink for concrete runs *)

(** Modelled from the spec: [VideoSinkCV] is not in this translation unit.
    The sink is unopened, recording, finalizing or closed; [begin] opens it
    (unless it fails), [good] holds only while it records, and [end] starts
    the finalization.  [begin_ok] and [budget] script the failures: a failed
    [begin], and the number of writes accepted before the sink goes bad. *)
Inductive Phase := Unopened | Recording | Finalizing | Closed.

Record Recorder := mkRecorder {
  phase : Phase;
  begin_ok : bool;
  budget : nat;
  geometry : Z * Z;
  written : list Mat;
  ends : nat
}.

Definition recorder_good (r : Recorder) : bool :=
  match phase r with
  | Recording => negb (Nat.eqb (budget r) 0)
  | _ => false
  end.

Global Instance Recorder_sink : VideoSink Recorder := {|
  sink_setProperties g r :=
    mkRecorder (phase r) (begin_ok r) (budget r) g (written r) (ends r);
  sink_begin r :=
    match phase r with
    | Unopened =>
        if begin_ok r
        then mkRecorder Recording true (budget r) (geometry r) (written r)
                        (ends r)
        else r
    | _ => r
    end;
  sink_good := recorder_good;
  sink_write m r :=
    if recorder_good r
    then mkRecorder (phase r) (begin_ok r) (Nat.pred (budget r)) (geometry r)
                    (written r ++ [m]) (ends r)
    else r;
  sink_end r :=
    mkRecorder Finalizing (begin_ok r) (budget r) (geometry r) (written r)
               (Datatypes.S (ends r))
|}.

(** A sink as [VideoSinkCV::create] returns it. *)
Definition fresh_recorder (ok : bool) (n : nat) : Recorder :=
  mkRecorder Unopened ok n (0, 0) [] 0.

(** ** Concrete inputs *)

Definition a_frame : Frame := mkFrame (mkMat 2 2 [10; 20; 30; 40]) 2 2.

(** A frame source that yields [n] frames and then empty frames. *)
Definition clip (n : N) : N → Frame :=
  λ i, if (i <? n)%N then a_frame else no_frame.

Definition models_on_disk : gset string :=
  {[ "m/face.cpb"; "m/mean.cpb"; "m/reg.cpb"; "m/eye.cpb" ]}.

Definition some_args (input : string) (w m : bool) : Args :=
  mkArgs 13 false input "out" w m 0 1065353216
         "m/face.cpb" "m/mean.cpb" "m/reg.cpb" "m/eye.cpb".

Definition some_env (n : N) (k : option Recorder) (sch : list Thread)
  : Env Recorder :=
  mkEnv Recorder false (λ d _, bool_decide (d = "out")) (clip n)
        (λ i, 1) (λ i, 2) (λ i, mkMat 2 2 [1; 2; 3; 4])
        (λ i, (0, 0, 1, 1)) (λ _ _, k) sch.

(** ** Observations on a trace *)

(** The indices with which the frame source was queried, in order. *)
Definition pulls (tr : list Event) : list N :=
  omap (λ e, match e with EvPull i => Some i | _ => None end) tr.

(** The number of events of a kind. *)
Definition count (p : Event → bool) (tr : list Event) : nat :=
  length (List.filter p tr).

Definition is_render_call (e : Event) : bool :=
  match e with EvRenderCall => true | _ => false end.

Definition is_render_ret (b : bool) (e : Event) : bool :=
  match e with EvRenderRet b' => Bool.eqb b b' | _ => false end.

Definition is_pull (e : Event) : bool :=
  match e with EvPull _ => true | _ => false end.

Definition is_sink_end (e : Event) : bool :=
  match e with EvSinkEnd => true | _ => false end.

Definition is_get_pixels (e : Event) : bool :=
  match e with EvGetOutputPixels => true | _ => false end.

Definition is_sink_write (e : Event) : bool :=
  match e with EvSinkWrite _ => true | _ => false end.

Definition is_set_offset (e : Event) : bool :=
  match e with EvDispSetOffset _ _ => true | _ => false end.

Definition is_set_resolution (e : Event) : bool :=
  match e with EvDispSetDisplayResolution _ _ => true | _ => false end.

Definition is_set_orientation (e : Event) : bool :=
  match e with EvDispSetOutputRenderOrientation => true | _ => false end.

(** Events of the pipeline: everything that is neither a log line, the help
    text nor a file removal. *)
Definition is_quiet (e : Event) : bool :=
  match e with
  | EvHelp | EvLogError _ | EvRemove _ => true
  | _ => false
  end.

(** [c, c+1, ..., c+k-1]. *)
Fixpoint upto (c : N) (k : nat) : list N :=
  match k with
  | O => []
  | Datatypes.S k' => c :: upto (c + 1)%N k'
  end.

(** A frame source that yields exactly [n] frames: the frames at the
    indices below [n], and empty frames from [n] on. *)
Definition yields (v : N → Frame) (n : N) : Prop :=
  ∀ i : N, Mat_empty (image (v i)) = bool_decide (n ≤ i)%N.

(** The whole run, from a file system. *)
Definition run {S} `{!VideoSink S} (args : Args) (env : Env S) (fuel : nat)
  (fs : gset string) : Res () * State S :=
  drishti_main args env fuel (initial fs).

(** The command line passes the argument checks on a file system. *)
Definition accepted {S} `{!VideoSink S} (args : Args) (env : Env S)
  (fs : gset string) : Prop :=
  (check_arguments args env (initial fs)).1 = Ret ().

(** ** The phases of a run, as traces *)

(** A state with more events. *)
Definition add {S} (es : list Event) (st : State S) : State S :=
  mkState (files st) (opengl st) (counter st) (frame st) (sink st)
          (display st) (trace st ++ es).

(** The probe file of the directory check and the movie file. *)
Definition probe (args : Args) : string := sOutput args +:+ "/.drishti-hci".
Definition movie (args : Args) : string := sOutput args +:+ "/movie.mov".

(** Events that only [render] and the loop around it emit. *)
Definition is_frame_event (e : Event) : bool :=
  match e with
  | EvRenderCall | EvRenderRet _ | EvPull _ | EvLogMean _ | EvUpload _ _ _
  | EvDetect _ _ _ _ | EvDispSetOffset _ _ | EvDispSetDisplayResolution _ _
  | EvDispUseTexture _ | EvDispRender | EvSinkGood _ | EvGetOutputPixels
  | EvSinkWrite _ | EvWindowPresent => true
  | _ => false
  end.

(** Events of the argument checks and of the setup, up to the creation of
    the display. *)
Definition is_setup (e : Event) : bool :=
  match e with
  | EvHelp | EvLogError _ | EvLogInfo _ | EvRemove _ | EvWindowNew _ _ _
  | EvContextNew | EvVideoNew _ | EvVideoSetOutputFormat | EvPull _
  | EvWindowResize _ _ | EvWindowCurrent | EvContextCurrent
  | EvDetectorNew _ _ _ _ | EvSetLetterboxHeight | EvSetShowMotionAxes _
  | EvSetShowDetectionScales _ | EvSwizzleNew | EvSourceSet | EvSinkNew _ _
  | EvSinkSetProperties _ _ | EvSinkBegin | EvDispNew | EvDispInit _ _ _
  | EvDispSetOutputRenderOrientation => true
  | _ => false
  end.

(** The sizing of the drawable surface and the allocation of the pipeline
    behind the GL resource: detector, texture stage, sink, display. *)
Definition is_pipeline (e : Event) : bool :=
  match e with
  | EvWindowResize _ _ | EvWindowCurrent | EvContextCurrent
  | EvDetectorNew _ _ _ _ | EvSetLetterboxHeight | EvSetShowMotionAxes _
  | EvSetShowDetectionScales _ | EvSwizzleNew | EvSourceSet | EvSinkNew _ _
  | EvSinkSetProperties _ _ | EvSinkBegin | EvDispNew | EvDispInit _ _ _
  | EvDispSetOutputRenderOrientation | EvRenderCall | EvRenderRet _
  | EvUpload _ _ _ | EvDetect _ _ _ _ | EvDispSetOffset _ _
  | EvDispSetDisplayResolution _ _ | EvDispUseTexture _ | EvDispRender
  | EvSinkGood _ | EvGetOutputPixels | EvSinkWrite _ | EvWindowPresent
  | EvSemaphoreNew _ | EvSinkEnd | EvSignal | EvWaitReleased => true
  | _ => false
  end.

(** Events of the teardown. *)
Definition is_teardown (e : Event) : bool :=
  match e with
  | EvSemaphoreNew _ | EvSinkEnd | EvSignal | EvWaitReleased => true
  | _ => false
  end.

Section Shapes.

Context {S : Type} `{!VideoSink S}.
Variable args : Args.
Variable env : Env S.

(** The events of [open_video] up to the first pull. *)
Definition open_events : list Event :=
  (if doWindow args then [EvWindowNew "hci" 640 480] else [EvContextNew]) ++
  [EvVideoNew (sInput args); EvVideoSetOutputFormat; EvPull 0].

(** The sink that [configure] leaves in [sink]. *)
Definition configured_sink (f : Frame) : option S :=
  if doMovie args then
    match sink_create env (movie args) ".mov" with
    | Some k =>
        Some (sink_begin (sink_setProperties (frame_cols f, frame_rows f) k))
    | None => None
    end
  else None.

(** The events of [configure] for a GL resource, a first frame and a file
    system. *)
Definition configure_events (g : GLResource) (f : Frame) (fs : gset string)
  : list Event :=
  (if window g then [EvWindowResize (frame_cols f) (frame_rows f)] else []) ++
  (if window g then [EvWindowCurrent] else [EvContextCurrent]) ++
  [EvDetectorNew (scale args) (cascCal args) (cols (image f)) (rows (image f));
   EvSetLetterboxHeight; EvSetShowMotionAxes false;
   EvSetShowDetectionScales false; EvSwizzleNew; EvSourceSet] ++
  (if bool_decide (movie args ∈ fs) then [EvRemove (movie args)] else []) ++
  (if doMovie args then
     EvSinkNew (movie args) ".mov" ::
     match sink_create env (movie args) ".mov" with
     | Some _ => [EvSinkSetProperties (frame_cols f) (frame_rows f);
                  EvSinkBegin]
     | None => []
     end
   else []) ++
  (if doWindow args then
     [EvDispNew;
      EvDispInit (cols (image f)) (rows (image f))
                 (TEXTURE_FORMAT (android env));
      EvDispSetOutputRenderOrientation]
   else []).

(** The display calls of one frame. *)
Definition display_events (i : N) : list Event :=
  let '(tx, ty, sx, sy) := win_impl env i in
  [EvDispSetOffset tx ty; EvDispSetDisplayResolution sx sy;
   EvDispUseTexture (detector_tex env i); EvDispRender].

(** The sink calls of one frame, and the sink after them. *)
Definition sink_events (i : N) (k : option S) : list Event :=
  match k with
  | Some k =>
      EvSinkGood (sink_good k) ::
      (if sink_good k
       then [EvGetOutputPixels; EvSinkWrite (detector_pixels env i)]
       else [])
  | None => []
  end.

Definition sink_after (i : N) (k : option S) : option S :=
  match k with
  | Some k =>
      Some (if sink_good k then sink_write (detector_pixels env i) k else k)
  | None => None
  end.

(** What [render] emits between its call and its return, for a frame that
    is not empty. *)
Definition frame_events (st : State S) : list Event :=
  let i := counter st in
  let f := video env i in
  let fmt := TEXTURE_FORMAT (android env) in
  [EvLogMean (image f);
   EvUpload (frame_cols f) (frame_rows f) fmt;
   EvDetect (frame_cols f) (frame_rows f) (swizzle_tex env i) fmt] ++
  (if display st then display_events i else []) ++
  sink_events i (sink st).

(** Both loops of [GLResource::operator()(RenderDelegate&)] in one: the
    callback is called until it returns false, and [post] runs after each
    call that returned true. *)
Fixpoint drive (post : M S unit) (callback : M S bool) (fuel : nat)
  : M S unit :=
  match fuel with
  | O => out_of_fuel
  | Datatypes.S n =>
      b ← callback;
      if (b : bool) then post;; drive post callback n else mret ()
  end.

Definition present (w : bool) : M S unit :=
  if w then emit [EvWindowPresent] else mret ().

(** The state in which the loop starts, for an accepted command line and a
    first frame that is not empty. *)
Definition setup_events (fs : gset string) : list Event :=
  [EvRemove (probe args)] ++ open_events ++
  configure_events (mkGL (doWindow args) (negb (doWindow args)))
                   (video env 0%N) (fs ∖ {[probe args]}).

Definition configured (fs : gset string) : State S :=
  mkState (fs ∖ {[probe args]} ∖ {[movie args]})
          (mkGL (doWindow args) (negb (doWindow args))) 0%N (video env 0%N)
          (configured_sink (video env 0%N)) (doWindow args)
          (setup_events fs).

End Shapes.

(** Whether a schedule lets the completion callback run, and whether it
    lets the main thread run after the callback has ([fired] tells whether
    it already has). *)
Definition signals (schedule : list Thread) : bool :=
  existsb (λ t, match t with SinkThread => true | MainThread => false end)
          schedule.

Fixpoint releases (fired : bool) (schedule : list Thread) : bool :=
  match schedule with
  | [] => false
  | MainThread :: rest => if fired then true else releases false rest
  | SinkThread :: rest => releases true rest
  end.

(** What the two threads emit after [sink->end] under a schedule. *)
Definition wait_events (schedule : list Thread) : list Event :=
  if releases false schedule then [EvSignal; EvWaitReleased]
  else if signals schedule then [EvSignal] else [].

(** ** Further observations *)

(** The images written to the sink, in order. *)
Definition writes (tr : list Event) : list Mat :=
  omap (λ e, match e with EvSinkWrite m => Some m | _ => None end) tr.

(** Calls on the window and on the display that only exists with it. *)
Definition is_window_event (e : Event) : bool :=
  match e with
  | EvWindowNew _ _ _ | EvWindowResize _ _ | EvWindowCurrent | EvWindowPresent
  | EvDispNew | EvDispInit _ _ _ | EvDispSetOutputRenderOrientation
  | EvDispSetOffset _ _ | EvDispSetDisplayResolution _ _ | EvDispUseTexture _
  | EvDispRender => true
  | _ => false
  end.

(** Calls on the headless context. *)
Definition is_context_event (e : Event) : bool :=
  match e with
  | EvContextNew | EvContextCurrent => true
  | _ => false
  end.

(** Calls on a sink object, its semaphore included. *)
Definition is_sink_traffic (e : Event) : bool :=
  match e with
  | EvSinkSetProperties _ _ | EvSinkBegin | EvSinkGood _ | EvGetOutputPixels
  | EvSinkWrite _ | EvSemaphoreNew _ | EvSinkEnd | EvSignal
  | EvWaitReleased => true
  | _ => false
  end.

(** The creation and the opening of a sink. *)
Definition is_sink_open (e : Event) : bool :=
  match e with
  | EvSinkNew _ _ | EvSinkSetProperties _ _ | EvSinkBegin => true
  | _ => false
  end.

(** A model path that [checkModel] lets pass on a file system, and the line
    it logs for one it does not. *)
Definition model_ok (fs : gset string) (m : string) : bool :=
  negb (empty_str m) && bool_decide (m ∈ fs).

Definition model_error (m : string) : string :=
  if empty_str m then "Must specify valid model " +:+ m
  else "Specified file " +:+ m +:+ " does not exist or is not readable".

(** The four model paths in the order of the [config] vector. *)
Definition models (args : Args) : list string :=
  [sFaceDetector args; sFaceDetectorMean args; sFaceRegressor args;
   sEyeRegressor args].

(** The images of a list that a sink takes when it is offered them one
    after the other, each only if [good()] holds at that time. *)
Fixpoint fed {S} `{!VideoSink S} (k : S) (ms : list Mat) : list Mat :=
  match ms with
  | [] => []
  | m :: rest =>
      if sink_good k then m :: fed (sink_write m k) rest else fed k rest
  end.

(** A frame source that never ends. *)
Definition endless_env : Env Recorder :=
  mkEnv Recorder false (λ d _, bool_decide (d = "out")) (λ _, a_frame)
        (λ i, 1) (λ i, 2) (λ i, mkMat 2 2 [1; 2; 3; 4])
        (λ i, (0, 0, 1, 1)) (λ _ _, None) [].

Ltac run_monad :=
  unfold remove, file_exists, pull, getOutputPixels, delegate,
         GLResource_new, GLResource_resize, GLResource_current in *;
  unfold mbind, M_bind, mret, M_ret, emit, get, return_, set_files,
         set_opengl, set_counter, set_frame, set_sink, set_display,
         out_of_fuel, blocked in *.

Ltac flatten_trace := rewrite <- ?app_assoc; cbn [app].

(** ** Lemmas on traces and strings *)

Lemma count_app p (a b : list Event) :
  count p (a ++ b) = (count p a + count p b)%nat.
Proof. unfold count. by rewrite List.filter_app, length_app. Qed.

Lemma pulls_app (a b : list Event) : pulls (a ++ b) = pulls a ++ pulls b.
Proof. unfold pulls. apply omap_app. Qed.

Lemma forallb_app_true {A} (p : A → bool) (a b : list A) :
  forallb p a = true → forallb p b = true → forallb p (a ++ b) = true.
Proof. intros Ha Hb. rewrite forallb_app, Ha, Hb. reflexivity. Qed.

Lemma count_disjoint (p q : Event → bool) (es : list Event) :
  (∀ e, q e = true → p e = false) →
  forallb q es = true → count p es = 0%nat.
Proof.
  intros Hpq. unfold count. induction es as [|e es IH]; [done|].
  cbn [forallb List.filter]. intros [He Hes]%andb_prop.
  rewrite (Hpq e He). auto.
Qed.

Lemma pulls_disjoint (q : Event → bool) (es : list Event) :
  (∀ e, q e = true → is_pull e = false) →
  forallb q es = true → pulls es = [].
Proof.
  intros Hq. induction es as [|e es IH]; [done|].
  cbn [forallb]. intros [He Hes]%andb_prop.
  specialize (Hq e He). unfold pulls in *. cbn [omap].
  destruct e; try discriminate; cbn; auto.
Qed.

Lemma find_from_pos pat s pos : (0 < pos)%N → find_from pat s pos ≠ 0%N.
Proof.
  revert pos. induction s as [|a s IH]; intros pos Hpos; cbn [find_from].
  - destruct (String.prefix pat ""); [lia | unfold npos, size_max; lia].
  - destruct (String.prefix pat (String a s)); [lia | apply IH; lia].
Qed.

(** [!s.find(pat)] holds exactly when [s] begins with [pat]. *)
Lemma lnot_find s pat : lnot (find s pat) = String.prefix pat s.
Proof.
  unfold lnot, find. destruct s as [|a s]; cbn [find_from].
  - destruct (String.prefix pat ""); reflexivity.
  - destruct (String.prefix pat (String a s)); [reflexivity|].
    apply N.eqb_neq, find_from_pos. lia.
Qed.

Lemma append_inj_r (s a b : string) : s +:+ a = s +:+ b → a = b.
Proof. induction s as [|c s IH]; cbn; [done|]. intros [= H]. auto. Qed.

Lemma probe_not_movie args : probe args ≠ movie args.
Proof. unfold probe, movie. intros H%append_inj_r. discriminate. Qed.

Lemma incr_small (c : N) : (c < size_max)%N → incr c = (c + 1)%N.
Proof.
  unfold incr, size_max. intros H. apply N.mod_small. lia.
Qed.

Lemma upto_bounds (c : N) (k : nat) (i : N) :
  i ∈ upto c k ↔ (c ≤ i < c + N.of_nat k)%N.
Proof.
  revert c. induction k as [|k IH]; intros c; cbn [upto].
  - rewrite elem_of_nil. lia.
  - rewrite elem_of_cons, IH. lia.
Qed.

Lemma upto_increasing (c : N) (k : nat) : StronglySorted N.lt (upto c k).
Proof.
  revert c. induction k as [|k IH]; intros c; cbn [upto]; constructor.
  - apply IH.
  - apply Forall_forall. intros i Hi%upto_bounds. lia.
Qed.

Lemma upto_nondecreasing (c : N) (k : nat) : StronglySorted N.le (upto c k).
Proof.
  revert c. induction k as [|k IH]; intros c; cbn [upto]; constructor.
  - apply IH.
  - apply Forall_forall. intros i Hi%upto_bounds. lia.
Qed.

(** ** The phases of [drishti_main] *)

Section Phases.

Context {S : Type} `{!VideoSink S}.
Variable args : Args.
Variable env : Env S.

Lemma check_models_cases config (st : State S) :
  check_models config st = (Ret (), st)
  ∨ ∃ msg, check_models config st = (Return 1, add [EvLogError msg] st).
Proof.
  induction config as [|[m d] rest IH]; [by left|].
  cbn [check_models]. unfold checkModel. run_monad.
  destruct (empty_str m); simpl; [right; eauto|].
  destruct (bool_decide (m ∈ files st)); simpl; [apply IH | right; eauto].
Qed.

(** The argument checks either fall through, having removed the probe
    file, or return 0 (help) or 1 after log lines only. *)
Lemma check_arguments_cases (st : State S) :
  check_arguments args env st =
    (Ret (), mkState (files st ∖ {[probe args]}) (opengl st) (counter st)
                     (frame st) (sink st) (display st)
                     (trace st ++ [EvRemove (probe args)]))
  ∨ ∃ z es fs,
      check_arguments args env st =
        (Return z, mkState fs (opengl st) (counter st) (frame st) (sink st)
                           (display st) (trace st ++ es))
      ∧ (z = 0 ∨ z = 1) ∧ forallb is_quiet es = true.
Proof.
  unfold check_arguments, probe. run_monad.
  destruct (bool_decide (argc args ≤ 1) || help args); cbn -[check_models].
  { right. exists 0, [EvHelp], (files st). auto. }
  destruct (empty_str (sOutput args)); cbn -[check_models].
  { right. eexists 1, [_], (files st). split; [reflexivity|]. auto. }
  destruct (dir_writable env (sOutput args) ".drishti-hci");
    cbn -[check_models].
  2:{ right. eexists 1, [_], (files st). split; [reflexivity|]. auto. }
  destruct (empty_str (sInput args)); cbn -[check_models].
  { right. eexists 1, [_; _], _. flatten_trace. split; [reflexivity|]. auto. }
  match goal with |- context [check_models ?c] => set (config := c) end.
  assert (Hm : ∀ st0 : State S,
     check_models config st0 = (Ret (), st0)
     ∨ ∃ msg, check_models config st0 = (Return 1, add [EvLogError msg] st0))
    by (intros; apply check_models_cases).
  destruct (lnot (find (sInput args) ".test")); cbn -[check_models].
  - destruct (bool_decide (sInput args ∈ _)); cbn -[check_models].
    + match goal with
      | |- context [check_models config ?s] =>
          destruct (Hm s) as [-> | [msg ->]]
      end; [by left|].
      right. eexists 1, [_; _], _. unfold add; simpl. flatten_trace.
      split; [reflexivity|]. auto.
    + right. eexists 1, [_; _], _. flatten_trace. split; [reflexivity|]. auto.
  - match goal with
    | |- context [check_models config ?s] =>
        destruct (Hm s) as [-> | [msg ->]]
    end; [by left|].
    right. eexists 1, [_; _], _. unfold add; simpl. flatten_trace.
    split; [reflexivity|]. auto.
Qed.

Lemma check_arguments_accepted (st : State S) :
  (check_arguments args env st).1 = Ret () →
  check_arguments args env st =
    (Ret (), mkState (files st ∖ {[probe args]}) (opengl st) (counter st)
                     (frame st) (sink st) (display st)
                     (trace st ++ [EvRemove (probe args)])).
Proof.
  intros H. destruct (check_arguments_cases st) as [E | (z & es & fs & E & _)];
    [exact E|].
  rewrite E in H. discriminate.
Qed.

(** [open_video]: the GL resource, the source, and the first pull. *)
Lemma open_video_spec (st : State S) :
  open_video args env st =
    let st1 := mkState (files st)
                 (mkGL (doWindow args) (negb (doWindow args))) 0%N
                 (video env 0%N) (sink st) (display st)
                 (trace st ++ open_events args) in
    if Mat_empty (image (video env 0%N))
    then (Return (-1), add [EvLogInfo "No frames available in video"] st1)
    else (Ret (), st1).
Proof.
  unfold open_video, open_events, add. run_monad.
  destruct (doWindow args); simpl;
    destruct (Mat_empty (image (video env 0%N))); simpl;
    flatten_trace; reflexivity.
Qed.

(** [configure] always falls through. *)
Lemma configure_spec (st : State S) :
  sink st = None → display st = false →
  configure args env st =
    (Ret (), mkState (files st ∖ {[movie args]}) (opengl st) (counter st)
                     (frame st) (configured_sink args env (frame st))
                     (doWindow args)
                     (trace st ++
                      configure_events args env (opengl st) (frame st)
                                       (files st))).
Proof.
  destruct st as [fs g c f k d tr]. simpl. intros -> ->.
  unfold configure, configure_events, configured_sink, movie. run_monad.
  simpl.
  assert (Hfs : ∀ p : string, bool_decide (p ∈ fs) = false → fs = fs ∖ {[p]}).
  { intros p Hp. apply bool_decide_eq_false in Hp. symmetry.
    apply difference_disjoint_L. by apply disjoint_singleton_r. }
  destruct (window g) eqn:Hw; simpl; rewrite ?Hw; simpl;
    (destruct (bool_decide (_ ∈ fs)) eqn:Hin; simpl;
      [|rewrite <- (Hfs _ Hin)]);
    (destruct (doMovie args); simpl;
      [destruct (sink_create env _ ".mov"); simpl|]);
    destruct (doWindow args); simpl; flatten_trace; reflexivity.
Qed.

(** [render] on an empty frame. *)
Lemma render_empty (st : State S) :
  Mat_empty (image (video env (counter st))) = true →
  render env st =
    (Ret false,
     mkState (files st) (opengl st) (incr (counter st))
             (video env (counter st)) (sink st) (display st)
             (trace st ++
              [EvRenderCall; EvPull (counter st); EvRenderRet false])).
Proof.
  intros H. unfold render. run_monad. simpl. rewrite H. simpl.
  flatten_trace. reflexivity.
Qed.

(** [render] on a frame. *)
Lemma render_frame (st : State S) :
  Mat_empty (image (video env (counter st))) = false →
  render env st =
    (Ret true,
     mkState (files st) (opengl st) (incr (counter st))
             (video env (counter st))
             (sink_after env (counter st) (sink st)) (display st)
             (trace st ++
              [EvRenderCall; EvPull (counter st)] ++ frame_events env st ++
              [EvRenderRet true])).
Proof.
  intros H. unfold render, frame_events, display_events, sink_events,
    sink_after.
  run_monad. simpl. rewrite H. simpl.
  destruct (win_impl env (counter st)) as [[[tx ty] sx] sy].
  destruct (display st), (sink st) as [k|]; simpl;
    try (destruct (sink_good k); simpl); flatten_trace; reflexivity.
Qed.

End Phases.

(** ** The render loop *)

Section Loop.

Context {S : Type} `{!VideoSink S}.
Variable env : Env S.

Lemma GLResource_run_drive (callback : M S bool) fuel (st : State S) :
  GLResource_run callback fuel st =
  drive (present (window (opengl st))) callback fuel st.
Proof.
  unfold GLResource_run, present. run_monad.
  destruct (window (opengl st)); generalize st; clear st;
    induction fuel as [|fuel IH]; intros st; cbn [drive GLWindow_run
      while_render]; try reflexivity; run_monad;
    destruct (callback st) as [[[]| | |] st1]; simpl; auto.
Qed.

Lemma present_spec w (st : State S) :
  ∃ es, present w st = (Ret (), add es st)
        ∧ es = (if w then [EvWindowPresent] else []).
Proof.
  destruct w; eexists; split; try reflexivity.
  unfold present, add. run_monad. destruct st; simpl.
  by rewrite app_nil_r.
Qed.

Lemma frame_events_frame (st : State S) :
  forallb is_frame_event (frame_events env st) = true.
Proof.
  unfold frame_events, display_events, sink_events.
  destruct (win_impl env (counter st)) as [[[tx ty] sx] sy].
  destruct (display st), (sink st) as [k|]; try destruct (sink_good k);
    reflexivity.
Qed.

Lemma sink_after_None i (k : option S) :
  sink_after env i k = None ↔ k = None.
Proof. destruct k; simpl; split; congruence. Qed.

(** Whatever the frame source does, the loop only emits frame events and
    leaves the file system, the GL resource, the display and the presence
    of the sink as they were. *)
Lemma drive_any w fuel (st : State S) :
  ∃ r st' es,
    drive (present w) (render env) fuel st = (r, st')
    ∧ (r = Ret () ∨ r = OutOfFuel)
    ∧ files st' = files st ∧ opengl st' = opengl st
    ∧ display st' = display st
    ∧ (sink st' = None ↔ sink st = None)
    ∧ trace st' = trace st ++ es
    ∧ forallb is_frame_event es = true.
Proof.
  revert st. induction fuel as [|fuel IH]; intros st.
  { exists OutOfFuel, st, []. rewrite app_nil_r. cbn. tauto. }
  cbn [drive]. unfold mbind at 1, M_bind at 1.
  destruct (Mat_empty (image (video env (counter st)))) eqn:E.
  - rewrite (render_empty env st E). eexists (Ret ()), _, _.
    split; [reflexivity|]. cbn. tauto.
  - rewrite (render_frame env st E). cbn match.
    unfold mbind at 1, M_bind at 1.
    match goal with |- context [present w ?s] =>
      destruct (present_spec w s) as (ps & -> & Hps);
      destruct (IH (add ps s))
        as (r & st' & es & -> & Hr & Hf & Hg & Hd & Hk & Ht & Hq)
    end.
    exists r, st', ([EvRenderCall; EvPull (counter st)] ++
                   frame_events env st ++ [EvRenderRet true] ++ ps ++ es).
    split; [reflexivity|].
    cbn [add files opengl display sink trace] in Hf, Hg, Hd, Hk, Ht.
    rewrite sink_after_None in Hk.
    repeat split; try assumption; try tauto.
    + rewrite Ht. rewrite <- !app_assoc. reflexivity.
    + cbn [app forallb is_frame_event andb].
      apply forallb_app_true; [apply frame_events_frame|].
      cbn [app forallb is_frame_event andb].
      apply forallb_app_true; [by subst ps; destruct w|assumption].
Qed.

Lemma frame_events_counts (st : State S) :
  pulls (frame_events env st) = []
  ∧ count is_render_call (frame_events env st) = 0%nat
  ∧ count (is_render_ret true) (frame_events env st) = 0%nat
  ∧ count (is_render_ret false) (frame_events env st) = 0%nat
  ∧ count is_set_offset (frame_events env st)
    = (if display st then 1 else 0)%nat
  ∧ count is_set_resolution (frame_events env st)
    = (if display st then 1 else 0)%nat.
Proof.
  unfold frame_events, display_events, sink_events.
  destruct (win_impl env (counter st)) as [[[tx ty] sx] sy].
  destruct (display st), (sink st) as [k|]; try destruct (sink_good k);
    repeat split; reflexivity.
Qed.

(** On a source that yields [n] frames, from a counter [k] frames before
    the end, the loop ends after [k] frames and one empty pull. *)
Lemma drive_yields w (n : N) (k : nat) : ∀ fuel (st : State S),
  yields (video env) n → (n ≤ size_max)%N →
  (counter st + N.of_nat k = n)%N → (k < fuel)%nat →
  ∃ st' es,
    drive (present w) (render env) fuel st = (Ret (), st')
    ∧ trace st' = trace st ++ es
    ∧ counter st' = incr n
    ∧ pulls es = upto (counter st) (Datatypes.S k)
    ∧ count is_render_call es = Datatypes.S k
    ∧ count (is_render_ret true) es = k
    ∧ count (is_render_ret false) es = 1%nat
    ∧ count is_set_offset es = (if display st then k else 0)%nat
    ∧ count is_set_resolution es = (if display st then k else 0)%nat.
Proof.
  induction k as [|k IH]; intros fuel st Hy Hn Hc Hfuel;
    (destruct fuel as [|fuel]; [lia|]);
    cbn [drive]; unfold mbind at 1, M_bind at 1.
  - assert (E : Mat_empty (image (video env (counter st))) = true).
    { rewrite Hy. apply bool_decide_eq_true. lia. }
    rewrite (render_empty env st E). eexists _, _.
    split; [reflexivity|]. cbn [trace counter].
    assert (counter st = n) as -> by lia.
    repeat split; try reflexivity; by destruct (display st).
  - assert (E : Mat_empty (image (video env (counter st))) = false).
    { rewrite Hy. apply bool_decide_eq_false. lia. }
    rewrite (render_frame env st E). cbn match.
    unfold mbind at 1, M_bind at 1.
    match goal with |- context [present w ?s] =>
      destruct (present_spec w s) as (ps & -> & Hps);
      destruct (IH fuel (add ps s) Hy Hn)
        as (st' & es & -> & Ht & Hcnt & Hp & H1 & H2 & H3 & H4 & H5)
    end.
    { cbn [add counter]. rewrite incr_small by lia. lia. }
    { lia. }
    cbn [add files opengl display sink trace counter] in Ht, Hp, H4, H5.
    rewrite incr_small in Hp by lia.
    destruct (frame_events_counts st) as (F0 & F1 & F2 & F3 & F4 & F5).
    assert (Pps : pulls ps = [] ∧ count is_render_call ps = 0%nat
                  ∧ count (is_render_ret true) ps = 0%nat
                  ∧ count (is_render_ret false) ps = 0%nat
                  ∧ count is_set_offset ps = 0%nat
                  ∧ count is_set_resolution ps = 0%nat)
      by (subst ps; destruct w; repeat split; reflexivity).
    destruct Pps as (P0 & P1 & P2 & P3 & P4 & P5).
    exists st', ([EvRenderCall; EvPull (counter st)] ++
                 frame_events env st ++ [EvRenderRet true] ++ ps ++ es).
    split; [reflexivity|].
    split; [rewrite Ht; rewrite <- !app_assoc; reflexivity|].
    split; [assumption|].
    rewrite !pulls_app, !count_app, F0, F1, F2, F3, F4, F5,
      P0, P1, P2, P3, P4, P5, Hp, H1, H2, H3, H4, H5.
    repeat split; try reflexivity; destruct (display st); cbn; lia.
Qed.

End Loop.

(** ** The teardown *)

Section Teardown.

Context {S : Type} `{!VideoSink S}.
Variable env : Env S.

Lemma add_nil (st : State S) : add [] st = st.
Proof. destruct st. unfold add. cbn. by rewrite app_nil_r. Qed.

(** Once the callback has run, the wait ends as soon as the main thread is
    scheduled. *)
Lemma await_fired schedule (st : State S) :
  await schedule 1 true st =
    if releases true schedule then (Ret (), add [EvWaitReleased] st)
    else (Blocked, st).
Proof.
  induction schedule as [|[] rest IH]; cbn [await releases];
    [reflexivity|reflexivity|exact IH].
Qed.

(** Before the callback has run the semaphore is at zero and the main
    thread stays in [wait]. *)
Lemma await_spec schedule (st : State S) :
  await schedule 0 false st =
    (if releases false schedule then Ret () else Blocked,
     add (wait_events schedule) st).
Proof.
  unfold wait_events. revert st.
  induction schedule as [|[] rest IH]; intros st; cbn [await releases].
  - cbn. by rewrite add_nil.
  - cbn [Semaphore_wait N.ltb N.compare]. rewrite IH. reflexivity.
  - run_monad. change (Semaphore_signal 0) with 1%N.
    rewrite await_fired. cbn [signals existsb orb].
    destruct (releases true rest); [|reflexivity].
    unfold add. cbn. flatten_trace. reflexivity.
Qed.

Lemma teardown_spec (st : State S) :
  teardown env st =
    match sink st with
    | None => (Return 0, st)
    | Some k =>
        (if releases false (sched env) then Return 0 else Blocked,
         mkState (files st) (opengl st) (counter st) (frame st)
                 (Some (sink_end k)) (display st)
                 (trace st ++ [EvSemaphoreNew 0; EvSinkEnd] ++
                  wait_events (sched env)))
    end.
Proof.
  unfold teardown. run_monad. destruct (sink st) as [k|]; [|reflexivity].
  cbn match. rewrite await_spec. unfold add. cbn.
  flatten_trace. by destruct (releases false (sched env)).
Qed.

(** A schedule in which the finalizer and later the main thread run lets
    the wait end. *)
Lemma releases_fired (b c : list Thread) :
  releases true (b ++ MainThread :: c) = true.
Proof. induction b as [|[] b IH]; cbn [app releases]; auto. Qed.

Lemma releases_fair (a b c : list Thread) :
  releases false (a ++ SinkThread :: b ++ MainThread :: c) = true.
Proof.
  induction a as [|[] a IH]; cbn [app releases].
  - apply releases_fired.
  - exact IH.
  - rewrite app_comm_cons, app_assoc. apply releases_fired.
Qed.

Lemma wait_events_teardown schedule :
  forallb is_teardown (wait_events schedule) = true.
Proof.
  unfold wait_events.
  destruct (releases false schedule), (signals schedule); reflexivity.
Qed.

End Teardown.

(** ** Whole runs *)

Section Run.

Context {S : Type} `{!VideoSink S}.
Variable args : Args.
Variable env : Env S.

(** A rejected command line: status 0 or 1 after log lines only. *)
Lemma run_rejected fuel fs :
  ¬ accepted args env fs →
  ∃ z es fs',
    run args env fuel fs =
      (Return z, mkState fs' (mkGL false false) 0%N no_frame None false es)
    ∧ (z = 0 ∨ z = 1) ∧ forallb is_quiet es = true.
Proof.
  intros Hrej. unfold run, drishti_main. unfold mbind at 1, M_bind at 1.
  unfold mbind at 1, M_bind at 1. unfold mbind at 1, M_bind at 1.
  unfold mbind at 1, M_bind at 1.
  destruct (check_arguments_cases args env (initial fs))
    as [E | (z & es & fs' & E & Hz & Hq)].
  - exfalso. apply Hrej. unfold accepted. by rewrite E.
  - rewrite E. exists z, es, fs'. auto.
Qed.

(** An accepted command line whose source has no first frame. *)
Lemma run_no_frames fuel fs :
  accepted args env fs →
  Mat_empty (image (video env 0%N)) = true →
  run args env fuel fs =
    (Return (-1),
     mkState (fs ∖ {[probe args]})
             (mkGL (doWindow args) (negb (doWindow args))) 0%N
             (video env 0%N) None false
             ([EvRemove (probe args)] ++ open_events args ++
              [EvLogInfo "No frames available in video"])).
Proof.
  intros Hacc Hempty. unfold run, drishti_main.
  unfold mbind at 1, M_bind at 1. unfold mbind at 1, M_bind at 1.
  unfold mbind at 1, M_bind at 1. unfold mbind at 1, M_bind at 1.
  rewrite (check_arguments_accepted args env _ Hacc).
  rewrite open_video_spec. cbn zeta. rewrite Hempty.
  unfold add, initial. cbn. flatten_trace. reflexivity.
Qed.

(** An accepted command line whose source has a first frame: the loop
    starts in the configured state. *)
Lemma run_accepted fuel fs :
  accepted args env fs →
  Mat_empty (image (video env 0%N)) = false →
  run args env fuel fs =
    (drive (present (doWindow args)) (render env) fuel;; teardown env)
      (configured args env fs).
Proof.
  intros Hacc Hframe. unfold run, drishti_main.
  unfold mbind at 1, M_bind at 1. unfold mbind at 1, M_bind at 1.
  unfold mbind at 1, M_bind at 1. unfold mbind at 1, M_bind at 1.
  rewrite (check_arguments_accepted args env _ Hacc).
  rewrite open_video_spec. cbn zeta. rewrite Hframe.
  rewrite configure_spec by reflexivity.
  rewrite GLResource_run_drive.
  unfold configured, setup_events, initial. cbn. reflexivity.
Qed.

(** How a run that started its loop ends: out of fuel, or through the
    teardown. *)
Lemma run_started fuel fs :
  accepted args env fs →
  Mat_empty (image (video env 0%N)) = false →
  ∃ r st es td,
    run args env fuel fs = (r, st)
    ∧ trace st = setup_events args env fs ++ es ++ td
    ∧ forallb is_frame_event es = true
    ∧ forallb is_teardown td = true
    ∧ files st = fs ∖ {[probe args]} ∖ {[movie args]}
    ∧ (sink st = None ↔ configured_sink args env (video env 0%N) = None)
    ∧ (r = OutOfFuel ∧ td = []
       ∨ sink st = None ∧ r = Return 0 ∧ td = []
       ∨ sink st ≠ None
         ∧ td = [EvSemaphoreNew 0; EvSinkEnd] ++ wait_events (sched env)
         ∧ r = (if releases false (sched env) then Return 0 else Blocked)).
Proof.
  intros Hacc Hframe. rewrite (run_accepted fuel fs Hacc Hframe).
  unfold mbind, M_bind.
  destruct (drive_any env (doWindow args) fuel (configured args env fs))
    as (r & st' & es & -> & Hr & Hf & _ & _ & Hk & Ht & Hq).
  cbn [configured files sink trace] in Hf, Hk, Ht.
  destruct Hr as [-> | ->]; cbn match.
  - rewrite teardown_spec. destruct (sink st') as [k|] eqn:Hs.
    + eexists _, _, es, _. split; [reflexivity|]. cbn [trace files sink].
      rewrite Ht, <- !app_assoc.
      repeat split; try assumption; try reflexivity.
      * cbn [app forallb is_teardown andb]. apply wait_events_teardown.
      * discriminate.
      * intros Hc. apply Hk in Hc. discriminate.
      * right; right. repeat split; reflexivity || discriminate.
    + exists (Return 0), st', es, []. rewrite app_nil_r.
      repeat split; try assumption; try reflexivity; tauto.
  - exists OutOfFuel, st', es, []. rewrite app_nil_r.
    repeat split; try assumption; try reflexivity; tauto.
Qed.

(** A run on a source that yields [n] frames, with enough fuel. *)
Lemma run_yields fuel fs (n : N) :
  accepted args env fs →
  yields (video env) n → (0 < n ≤ size_max)%N → (N.to_nat n < fuel)%nat →
  ∃ r st es td,
    run args env fuel fs = (r, st)
    ∧ trace st = setup_events args env fs ++ es ++ td
    ∧ counter st = incr n
    ∧ pulls es = upto 0 (Datatypes.S (N.to_nat n))
    ∧ count is_render_call es = Datatypes.S (N.to_nat n)
    ∧ count (is_render_ret true) es = N.to_nat n
    ∧ count (is_render_ret false) es = 1%nat
    ∧ count is_set_offset es = (if doWindow args then N.to_nat n else 0)%nat
    ∧ count is_set_resolution es
      = (if doWindow args then N.to_nat n else 0)%nat
    ∧ forallb is_frame_event es = true
    ∧ forallb is_teardown td = true
    ∧ (sink st = None ↔ configured_sink args env (video env 0%N) = None)
    ∧ (sink st = None ∧ r = Return 0 ∧ td = []
       ∨ sink st ≠ None
         ∧ td = [EvSemaphoreNew 0; EvSinkEnd] ++ wait_events (sched env)
         ∧ r = (if releases false (sched env) then Return 0 else Blocked)).
Proof.
  intros Hacc Hy Hn Hfuel.
  assert (Hframe : Mat_empty (image (video env 0%N)) = false).
  { rewrite Hy. apply bool_decide_eq_false. lia. }
  rewrite (run_accepted fuel fs Hacc Hframe). unfold mbind, M_bind.
  destruct (drive_any env (doWindow args) fuel (configured args env fs))
    as (r & st' & es & E & _ & _ & _ & _ & Hk & Ht & Hq).
  destruct (drive_yields env (doWindow args) n (N.to_nat n) fuel
              (configured args env fs) Hy)
    as (st'' & es' & E' & Ht' & Hc & Hp & H1 & H2 & H3 & H4 & H5);
    [lia | cbn; lia | lia |].
  rewrite E' in E. injection E as <- <-. rewrite E'. cbn match.
  assert (es' = es) as -> by (rewrite Ht' in Ht; by apply app_inv_head in Ht).
  cbn [configured counter display sink trace] in Ht, Hk, Hp, H4, H5.
  rewrite teardown_spec. destruct (sink st'') as [k|] eqn:Hs.
  - eexists _, _, es, _. split; [reflexivity|]. cbn [trace counter sink].
    rewrite Ht, <- !app_assoc.
    repeat split; try assumption; try reflexivity.
    + cbn [app forallb is_teardown andb]. apply wait_events_teardown.
    + discriminate.
    + intros Hcfg. apply Hk in Hcfg. discriminate.
    + right. repeat split; reflexivity || discriminate.
  - exists (Return 0), st'', es, []. rewrite app_nil_r.
    repeat split; try assumption; try reflexivity; tauto.
Qed.

Lemma setup_events_setup fs :
  forallb is_setup (setup_events args env fs) = true.
Proof.
  unfold setup_events, open_events, configure_events. cbn [window].
  destruct (doWindow args), (bool_decide (movie args ∈ fs ∖ {[probe args]})),
    (doMovie args), (sink_create env (movie args) ".mov"); reflexivity.
Qed.

Lemma setup_events_pulls fs : pulls (setup_events args env fs) = [0%N].
Proof.
  unfold setup_events, open_events, configure_events. cbn [window].
  destruct (doWindow args), (bool_decide (movie args ∈ fs ∖ {[probe args]})),
    (doMovie args), (sink_create env (movie args) ".mov"); reflexivity.
Qed.

Lemma setup_events_orientation fs :
  count is_set_orientation (setup_events args env fs)
  = (if doWindow args then 1 else 0)%nat.
Proof.
  unfold setup_events, open_events, configure_events. cbn [window].
  destruct (doWindow args), (bool_decide (movie args ∈ fs ∖ {[probe args]})),
    (doMovie args), (sink_create env (movie args) ".mov"); reflexivity.
Qed.

Lemma setup_events_remove fs :
  movie args ∈ fs → In (EvRemove (movie args)) (setup_events args env fs).
Proof.
  intros Hin. unfold setup_events, configure_events.
  rewrite bool_decide_eq_true_2.
  - rewrite !in_app_iff. right; right; right; right; right; left. by left.
  - apply elem_of_difference. split; [assumption|].
    rewrite elem_of_singleton. intros E. by apply (probe_not_movie args).
Qed.

End Run.

(** ** Concrete runs *)

Lemma clip_yields (n : N) : yields (clip n) n.
Proof.
  intros i. unfold clip. destruct (N.ltb_spec i n) as [Hlt | Hge]; cbn.
  - symmetry. apply bool_decide_eq_false. lia.
  - symmetry. apply bool_decide_eq_true. lia.
Qed.

(** ** Input validation *)

(** C1 (defect of the code): an input path that names no file and does not
    begin with ".test" is not rejected by the argument checks.  With the
    input "missing.mov" absent from the file system, the run creates the GL
    context, opens the frame source and pulls index 0; on a source without
    frames it returns -1 (not the configuration status 1), and on a source
    with frames it runs the whole loop and returns 0. *)
Theorem missing_input_not_rejected :
  let args := some_args "missing.mov" false false in
  bool_decide (sInput args ∈ models_on_disk) = false
  ∧ lnot (find (sInput args) ".test") = false
  ∧ run args (some_env 0 None []) 5 models_on_disk
    = (Return (-1),
       mkState models_on_disk (mkGL false true) 0%N no_frame None false
         [EvRemove "out/.drishti-hci"; EvContextNew; EvVideoNew "missing.mov";
          EvVideoSetOutputFormat; EvPull 0;
          EvLogInfo "No frames available in video"])
  ∧ (run args (some_env 2 None []) 5 models_on_disk).1 = Return 0.
Proof.
  cbn zeta. split; [reflexivity|]. split; [reflexivity|].
  split; vm_compute; reflexivity.
Qed.

(** ** The first pull *)

Section FirstPull.

Context {S : Type} `{!VideoSink S}.

(** C7: when the first pull returns an empty frame, the run logs
    "No frames available in video" and returns -1, which is neither 0 nor
    the status 1 of the argument checks; its trace is the probe removal,
    the creation of the GL resource, the opening of the source, the pull of
    index 0 and the log line, so the surface is never resized and neither
    the detector nor any other part of the pipeline is allocated. *)
Theorem no_frames_available (args : Args) (env : Env S) fuel fs :
  accepted args env fs →
  Mat_empty (image (video env 0%N)) = true →
  ∃ st,
    run args env fuel fs = (Return (-1), st)
    ∧ -1 ≠ 0 ∧ -1 ≠ 1
    ∧ trace st =
        [EvRemove (probe args)] ++
        (if doWindow args then [EvWindowNew "hci" 640 480]
         else [EvContextNew]) ++
        [EvVideoNew (sInput args); EvVideoSetOutputFormat; EvPull 0;
         EvLogInfo "No frames available in video"]
    ∧ pulls (trace st) = [0%N]
    ∧ count is_pipeline (trace st) = 0%nat
    ∧ sink st = None ∧ display st = false.
Proof.
  intros Hacc Hempty. rewrite (run_no_frames args env fuel fs Hacc Hempty).
  eexists. split; [reflexivity|]. cbn [trace sink display].
  unfold open_events. repeat split; try lia; try reflexivity;
    destruct (doWindow args); reflexivity.
Qed.

End FirstPull.

Lemma no_frames_available_witness :
  accepted (some_args "in.mov" false true)
           (some_env 0 (Some (fresh_recorder true 5)) []) models_on_disk
  ∧ Mat_empty (image (clip 0 0%N)) = true
  ∧ ∃ st,
      run (some_args "in.mov" false true)
          (some_env 0 (Some (fresh_recorder true 5)) []) 3 models_on_disk
      = (Return (-1), st)
      ∧ pulls (trace st) = [0%N] ∧ count is_pipeline (trace st) = 0%nat.
Proof.
  split; [vm_compute; reflexivity|]. split; [reflexivity|].
  destruct (no_frames_available (some_args "in.mov" false true)
              (some_env 0 (Some (fresh_recorder true 5)) []) 3 models_on_disk)
    as (st & Hrun & _ & _ & _ & Hp & Hc & _).
  - vm_compute; reflexivity.
  - reflexivity.
  - exists st. auto.
Defined.

(** ** The per-frame callback *)

Section Callback.

Context {S : Type} `{!VideoSink S}.

(** C5: in a call of [render] that pulls a frame, [getOutputPixels] and the
    sink write happen (once each) exactly when a sink is attached and its
    [good()] is true in that call; with no sink, or with [good()] false,
    neither happens, while the upload and the detector call still do, and
    so does the display when one is attached. *)
Theorem pixels_only_for_a_good_sink (env : Env S) (st : State S) :
  Mat_empty (image (video env (counter st))) = false →
  let i := counter st in
  let f := video env i in
  let fmt := TEXTURE_FORMAT (android env) in
  let recording :=
    match sink st with Some k => sink_good k | None => false end in
  ∃ st' es,
    render env st = (Ret true, st')
    ∧ trace st' = trace st ++ es
    ∧ count is_get_pixels es = (if recording then 1 else 0)%nat
    ∧ count is_sink_write es = (if recording then 1 else 0)%nat
    ∧ (recording = true → In (EvSinkWrite (detector_pixels env i)) es)
    ∧ In (EvUpload (frame_cols f) (frame_rows f) fmt) es
    ∧ In (EvDetect (frame_cols f) (frame_rows f) (swizzle_tex env i) fmt) es
    ∧ (display st = true →
       In (EvDispUseTexture (detector_tex env i)) es ∧ In EvDispRender es).
Proof.
  intros Hframe. cbn zeta. rewrite (render_frame env st Hframe).
  eexists _, _. split; [reflexivity|]. cbn [trace].
  split; [reflexivity|].
  unfold frame_events, display_events, sink_events.
  destruct (win_impl env (counter st)) as [[[tx ty] sx] sy].
  destruct (display st), (sink st) as [k|]; try destruct (sink_good k);
    cbn; repeat split; try discriminate; try reflexivity; tauto.
Qed.

End Callback.

Lemma pixels_only_for_a_good_sink_witness :
  let env := some_env 3 None [] in
  let st := mkState models_on_disk (mkGL true false) 1%N a_frame
              (Some (mkRecorder Recording true 0 (2, 2) [] 0)) true [] in
  Mat_empty (image (video env (counter st))) = false
  ∧ ∃ st' es,
      render env st = (Ret true, st')
      ∧ trace st' = trace st ++ es
      ∧ count is_get_pixels es = 0%nat
      ∧ count is_sink_write es = 0%nat
      ∧ In EvDispRender es.
Proof.
  cbn zeta. split; [reflexivity|].
  destruct (pixels_only_for_a_good_sink (some_env 3 None [])
              (mkState models_on_disk (mkGL true false) 1%N a_frame
                 (Some (mkRecorder Recording true 0 (2, 2) [] 0)) true []))
    as (st' & es & Hr & Ht & Hg & Hw & _ & _ & _ & Hd).
  - reflexivity.
  - exists st', es. repeat split; try assumption. apply Hd. reflexivity.
Defined.

(** ** The stale movie file *)

Section Movie.

Context {S : Type} `{!VideoSink S}.

(** C10: in every run that passes the argument checks and pulls a first
    frame, a file movie.mov that exists in the output directory is removed,
    whatever the value of [doMovie]. *)
Theorem stale_movie_removed (args : Args) (env : Env S) fuel fs :
  accepted args env fs →
  Mat_empty (image (video env 0%N)) = false →
  sOutput args +:+ "/movie.mov" ∈ fs →
  let st := (run args env fuel fs).2 in
  In (EvRemove (sOutput args +:+ "/movie.mov")) (trace st)
  ∧ sOutput args +:+ "/movie.mov" ∉ files st.
Proof.
  intros Hacc Hframe Hin. cbn zeta.
  destruct (run_started args env fuel fs Hacc Hframe)
    as (r & st & es & td & -> & Ht & _ & _ & Hf & _).
  cbn [snd]. rewrite Ht, Hf. split.
  - apply in_or_app. left. by apply setup_events_remove.
  - rewrite elem_of_difference, elem_of_singleton. unfold movie. tauto.
Qed.

End Movie.

Lemma stale_movie_removed_witness :
  let args := some_args "in.mov" false false in
  let env := some_env 2 None [] in
  let fs := models_on_disk ∪ {[ "out/movie.mov" ]} in
  accepted args env fs
  ∧ Mat_empty (image (video env 0%N)) = false
  ∧ sOutput args +:+ "/movie.mov" ∈ fs
  ∧ doMovie args = false
  ∧ In (EvRemove "out/movie.mov") (trace (run args env 5 fs).2)
  ∧ "out/movie.mov" ∉ files (run args env 5 fs).2.
Proof.
  cbn zeta.
  assert (Hin : "out/movie.mov" ∈ models_on_disk ∪ {[ "out/movie.mov" ]}).
  { apply elem_of_union_r, elem_of_singleton. reflexivity. }
  split; [vm_compute; reflexivity|]. split; [reflexivity|].
  split; [exact Hin|]. split; [reflexivity|].
  apply (stale_movie_removed (some_args "in.mov" false false)
           (some_env 2 None []) 5
           (models_on_disk ∪ {[ "out/movie.mov" ]})).
  - vm_compute; reflexivity.
  - reflexivity.
  - exact Hin.
Defined.

(** ** Counting callbacks and pulls *)

Ltac kinds :=
  let e := fresh "e" in
  let He := fresh "He" in
  intros e He; destruct e; (discriminate He || reflexivity).

Section Counting.

Context {S : Type} `{!VideoSink S}.
Variable args : Args.
Variable env : Env S.

(** In a run on a source that yields [n > 0] frames, the events of a kind
    that neither the setup nor the teardown emits are those of the loop. *)
Lemma count_in_loop (p : Event → bool) fs (es td : list Event) :
  (∀ e, is_setup e = true → p e = false) →
  (∀ e, is_teardown e = true → p e = false) →
  forallb is_teardown td = true →
  count p (setup_events args env fs ++ es ++ td) = count p es.
Proof.
  intros Hs Ht Htd. rewrite !count_app.
  rewrite (count_disjoint p is_setup _ Hs (setup_events_setup args env fs)).
  rewrite (count_disjoint p is_teardown _ Ht Htd). lia.
Qed.

Lemma pulls_in_run fs (es td : list Event) :
  forallb is_teardown td = true →
  pulls (setup_events args env fs ++ es ++ td) = 0%N :: pulls es.
Proof.
  intros Htd. rewrite !pulls_app, setup_events_pulls.
  rewrite (pulls_disjoint is_teardown td) by (assumption || kinds).
  by rewrite app_nil_r.
Qed.

(** C2 (amended): on a frame source that yields exactly [n] frames, with
    [n > 0], the render callback is invoked [n + 1] times, [n] times
    returning true and once, on the empty pull, returning false; the
    counter is incremented by every one of these invocations, the last
    included, and is [n + 1] after the loop.  With [n = 0] the run returns
    -1 after the setup pull: the callback is never invoked and the counter
    stays 0. *)
Theorem render_calls_and_counter fuel fs (n : N) :
  accepted args env fs →
  yields (video env) n → (n < size_max)%N → (N.to_nat n < fuel)%nat →
  let r := (run args env fuel fs).1 in
  let st := (run args env fuel fs).2 in
  if (n =? 0)%N
  then r = Return (-1)
       ∧ count is_render_call (trace st) = 0%nat
       ∧ counter st = 0%N
  else r ≠ OutOfFuel
       ∧ count is_render_call (trace st) = (N.to_nat n + 1)%nat
       ∧ count (is_render_ret true) (trace st) = N.to_nat n
       ∧ count (is_render_ret false) (trace st) = 1%nat
       ∧ counter st = (n + 1)%N.
Proof.
  intros Hacc Hy Hn Hfuel. cbn zeta.
  destruct (N.eqb_spec n 0) as [-> | Hpos].
  - rewrite run_no_frames; [|assumption|].
    + cbn [fst snd trace counter]. unfold open_events.
      repeat split; destruct (doWindow args); reflexivity.
    + rewrite Hy. reflexivity.
  - destruct (run_yields args env fuel fs n Hacc Hy)
      as (r & st & es & td & -> & Ht & Hc & _ & H1 & H2 & H3 & _ & _ & _
          & Htd & _ & Hend); [lia | lia |].
    cbn [fst snd]. rewrite Ht, !count_in_loop by (assumption || kinds).
    rewrite H1, H2, H3, Hc, incr_small by assumption.
    repeat split; try lia.
    destruct Hend as [(_ & -> & _) | (_ & _ & ->)];
      [|destruct (releases false (sched env))]; discriminate.
Qed.

(** C4 (amended): the indices with which the frame source is queried are,
    in order, 0 for the setup pull and then 0, 1, ..., n for the callbacks:
    the sequence starts at 0 and never decreases, index 0 is queried twice
    when the source has a first frame, and from the second query on it is
    strictly increasing. *)
Theorem pull_indices fuel fs (n : N) :
  accepted args env fs →
  yields (video env) n → (n ≤ size_max)%N → (N.to_nat n < fuel)%nat →
  let ps := pulls (trace (run args env fuel fs).2) in
  (run args env fuel fs).1 ≠ OutOfFuel
  ∧ (if (n =? 0)%N then ps = [0%N]
     else ps = 0%N :: upto 0 (N.to_nat n + 1))
  ∧ StronglySorted N.le ps
  ∧ StronglySorted N.lt (tail ps).
Proof.
  intros Hacc Hy Hn Hfuel. cbn zeta.
  destruct (N.eqb_spec n 0) as [-> | Hpos].
  - rewrite run_no_frames; [|assumption|by rewrite Hy].
    cbn [fst snd trace]. split; [discriminate|]. unfold open_events.
    assert (pulls
              ([EvRemove (probe args)] ++
               ((if doWindow args then [EvWindowNew "hci" 640 480]
                 else [EvContextNew]) ++
                [EvVideoNew (sInput args); EvVideoSetOutputFormat; EvPull 0])
               ++ [EvLogInfo "No frames available in video"]) = [0%N]) as ->
      by (destruct (doWindow args); reflexivity).
    repeat split; repeat constructor.
  - destruct (run_yields args env fuel fs n Hacc Hy)
      as (r & st & es & td & -> & Ht & _ & Hp & _ & _ & _ & _ & _ & _
          & Htd & _ & Hend); [lia | lia |].
    cbn [fst snd]. rewrite Ht, pulls_in_run, Hp by assumption.
    replace (N.to_nat n + 1)%nat with (Datatypes.S (N.to_nat n)) by lia.
    split.
    { destruct Hend as [(_ & -> & _) | (_ & _ & ->)];
        [|destruct (releases false (sched env))]; discriminate. }
    split; [reflexivity|]. split.
    + constructor.
      * apply upto_nondecreasing.
      * apply Forall_forall. intros i _. lia.
    + apply upto_increasing.
Qed.

(** C3 (amended): for a 10-frame source with no display window and no
    recording sink the run returns 0 after 12 pulls: the setup pull of index
    0 and the 11 pulls of the loop (indices 0 to 9 with a frame, index 10
    empty). *)
Theorem ten_frames_headless fuel fs :
  accepted args env fs →
  doWindow args = false → doMovie args = false →
  yields (video env) 10 → (10 < fuel)%nat →
  let r := (run args env fuel fs).1 in
  let st := (run args env fuel fs).2 in
  r = Return 0
  ∧ pulls (trace st) = [0; 0; 1; 2; 3; 4; 5; 6; 7; 8; 9; 10]%N
  ∧ length (pulls (trace st)) = 12%nat
  ∧ count is_render_call (trace st) = 11%nat
  ∧ count (is_render_ret true) (trace st) = 10%nat
  ∧ count (is_render_ret false) (trace st) = 1%nat.
Proof.
  intros Hacc Hw Hm Hy Hfuel. cbn zeta.
  destruct (run_yields args env fuel fs 10 Hacc Hy)
    as (r & st & es & td & -> & Ht & _ & Hp & H1 & H2 & H3 & _ & _ & _
        & Htd & Hk & Hend);
    [unfold size_max; lia | cbn; lia |].
  assert (Hnone : sink st = None).
  { apply Hk. unfold configured_sink. by rewrite Hm. }
  destruct Hend as [(_ & -> & ->) | (Hs & _)]; [|contradiction].
  cbn [fst snd]. rewrite Ht, pulls_in_run, !count_in_loop
    by (reflexivity || kinds).
  rewrite Hp, H1, H2, H3. repeat split; reflexivity.
Qed.

End Counting.

Lemma render_calls_and_counter_witness :
  let args := some_args "in.mov" false false in
  let env := some_env 2 None [] in
  let st := (run args env 5 models_on_disk).2 in
  accepted args env models_on_disk
  ∧ yields (video env) 2
  ∧ (2 < size_max)%N
  ∧ (N.to_nat 2 < 5)%nat
  ∧ count is_render_call (trace st) = 3%nat
  ∧ counter st = 3%N.
Proof.
  cbn zeta.
  assert (Hacc : accepted (some_args "in.mov" false false)
                   (some_env 2 None []) models_on_disk)
    by (vm_compute; reflexivity).
  assert (Hn : (2 < size_max)%N) by reflexivity.
  assert (Hfuel : (N.to_nat 2 < 5)%nat) by (cbn; lia).
  pose proof (render_calls_and_counter (some_args "in.mov" false false)
                (some_env 2 None []) 5 models_on_disk 2 Hacc (clip_yields 2)
                Hn Hfuel) as H.
  cbn zeta in H. change ((2 =? 0)%N) with false in H. cbn match in H.
  destruct H as (_ & H1 & _ & _ & H2).
  repeat split; try assumption. apply clip_yields.
Defined.

(** C2 as stated fails on a 2-frame source: the callback is invoked 3
    times, and the counter is then 3, not 2. *)
Lemma frame_counter_counterexample :
  let args := some_args "in.mov" false false in
  let env := some_env 2 None [] in
  let st := (run args env 5 models_on_disk).2 in
  accepted args env models_on_disk
  ∧ yields (video env) 2
  ∧ ¬ (count is_render_call (trace st) = 3%nat ∧ counter st = 2%N).
Proof.
  cbn zeta. split; [vm_compute; reflexivity|]. split; [apply clip_yields|].
  intros [_ H]. vm_compute in H. discriminate.
Qed.

Lemma pull_indices_witness :
  let args := some_args "in.mov" true false in
  let env := some_env 3 None [] in
  let ps := pulls (trace (run args env 4 models_on_disk).2) in
  accepted args env models_on_disk
  ∧ yields (video env) 3
  ∧ (3 ≤ size_max)%N
  ∧ (N.to_nat 3 < 4)%nat
  ∧ ps = [0; 0; 1; 2; 3]%N
  ∧ StronglySorted N.lt (tail ps).
Proof.
  cbn zeta.
  assert (Hacc : accepted (some_args "in.mov" true false)
                   (some_env 3 None []) models_on_disk)
    by (vm_compute; reflexivity).
  assert (Hn : (3 ≤ size_max)%N) by (unfold size_max; lia).
  assert (Hfuel : (N.to_nat 3 < 4)%nat) by (cbn; lia).
  pose proof (pull_indices (some_args "in.mov" true false)
                (some_env 3 None []) 4 models_on_disk 3 Hacc (clip_yields 3)
                Hn Hfuel) as H.
  cbn zeta in H. change ((3 =? 0)%N) with false in H. cbn match in H.
  destruct H as (_ & H1 & _ & H2).
  repeat split; try assumption. apply clip_yields.
Defined.

(** C4 as stated fails on a 2-frame source: the indices queried are 0, 0,
    1, 2, so index 0 is queried twice and the sequence is not strictly
    increasing. *)
Lemma pull_indices_counterexample :
  let args := some_args "in.mov" false false in
  let env := some_env 2 None [] in
  let ps := pulls (trace (run args env 5 models_on_disk).2) in
  accepted args env models_on_disk
  ∧ yields (video env) 2
  ∧ ps = [0; 0; 1; 2]%N
  ∧ ¬ StronglySorted N.lt ps
  ∧ ¬ NoDup ps.
Proof.
  cbn zeta. split; [vm_compute; reflexivity|]. split; [apply clip_yields|].
  assert (pulls (trace (run (some_args "in.mov" false false)
                          (some_env 2 None []) 5 models_on_disk).2)
          = [0; 0; 1; 2]%N) as -> by (vm_compute; reflexivity).
  split; [reflexivity|]. split.
  - intros Hs. inversion Hs as [|? ? _ Hf]. inversion Hf as [|? ? Hlt _]. lia.
  - intros Hd. inversion Hd as [|? ? Hnin _]. apply Hnin. left.
Qed.

Lemma ten_frames_headless_witness :
  let args := some_args "in.mov" false false in
  let env := some_env 10 None [] in
  let st := (run args env 11 models_on_disk).2 in
  accepted args env models_on_disk
  ∧ doWindow args = false ∧ doMovie args = false
  ∧ yields (video env) 10
  ∧ (10 < 11)%nat
  ∧ (run args env 11 models_on_disk).1 = Return 0
  ∧ length (pulls (trace st)) = 12%nat.
Proof.
  cbn zeta.
  assert (Hacc : accepted (some_args "in.mov" false false)
                   (some_env 10 None []) models_on_disk)
    by (vm_compute; reflexivity).
  assert (Hfuel : (10 < 11)%nat) by lia.
  destruct (ten_frames_headless (some_args "in.mov" false false)
              (some_env 10 None []) 11 models_on_disk Hacc eq_refl eq_refl
              (clip_yields 10) Hfuel) as (H1 & _ & H2 & _).
  repeat split; try assumption. apply clip_yields.
Defined.

(** C3 as stated fails on the 10-frame source: the frame source is pulled
    12 times in the run, not 11. *)
Lemma ten_frames_counterexample :
  let args := some_args "in.mov" false false in
  let env := some_env 10 None [] in
  let st := (run args env 11 models_on_disk).2 in
  accepted args env models_on_disk
  ∧ doWindow args = false
  ∧ sink st = None
  ∧ yields (video env) 10
  ∧ ¬ length (pulls (trace st)) = 11%nat.
Proof.
  cbn zeta. split; [vm_compute; reflexivity|]. split; [reflexivity|].
  split; [vm_compute; reflexivity|]. split; [apply clip_yields|].
  intros H. vm_compute in H. discriminate.
Qed.

(** ** The display transform *)

Section Display.

Context {S : Type} `{!VideoSink S}.
Variable args : Args.
Variable env : Env S.

(** C8 (amended): with a display attached, only the orientation flip is
    supplied once, when the display is constructed, and no callback sets it
    again; the offset and the display resolution are not set at
    construction but in every callback invocation that pulls a frame, from
    the values the window holds at that time. *)
Theorem display_transform fuel fs (n : N) :
  accepted args env fs →
  doWindow args = true →
  yields (video env) n → (0 < n ≤ size_max)%N → (N.to_nat n < fuel)%nat →
  (run args env fuel fs).1 ≠ OutOfFuel
  ∧ (∃ pre rest,
     trace (run args env fuel fs).2 = pre ++ rest
     ∧ count is_render_call pre = 0%nat
     ∧ count is_render_call rest = (N.to_nat n + 1)%nat
     ∧ count is_set_orientation pre = 1%nat
     ∧ count is_set_offset pre = 0%nat
     ∧ count is_set_resolution pre = 0%nat
     ∧ count is_set_orientation rest = 0%nat
     ∧ count is_set_offset rest = N.to_nat n
     ∧ count is_set_resolution rest = N.to_nat n)
  ∧ ∀ st0 : State S,
      display st0 = true →
      Mat_empty (image (video env (counter st0))) = false →
      ∃ es,
        trace (render env st0).2 = trace st0 ++ es
        ∧ In (EvDispSetOffset (win_impl env (counter st0)).1.1.1
                              (win_impl env (counter st0)).1.1.2) es
        ∧ In (EvDispSetDisplayResolution (win_impl env (counter st0)).1.2
                                         (win_impl env (counter st0)).2) es
        ∧ count is_set_orientation es = 0%nat.
Proof.
  intros Hacc Hw Hy Hn Hfuel. split; [|split].
  - destruct (run_yields args env fuel fs n Hacc Hy Hn Hfuel)
      as (r & st & es & td & -> & _ & _ & _ & _ & _ & _ & _ & _ & _
          & _ & _ & Hend).
    cbn [fst].
    destruct Hend as [(_ & -> & _) | (_ & _ & ->)];
      [|destruct (releases false (sched env))]; discriminate.
  - destruct (run_yields args env fuel fs n Hacc Hy Hn Hfuel)
      as (r & st & es & td & -> & Ht & _ & _ & H1 & _ & _ & H4 & H5 & Hq
          & Htd & _).
    rewrite Hw in H4, H5.
    exists (setup_events args env fs), (es ++ td).
    split; [exact Ht|]. rewrite setup_events_orientation, Hw, !count_app.
    rewrite !(count_disjoint _ is_setup (setup_events args env fs))
      by (apply setup_events_setup || kinds).
    rewrite (count_disjoint is_set_orientation is_frame_event es)
      by (assumption || kinds).
    rewrite !(count_disjoint _ is_teardown td) by (assumption || kinds).
    rewrite H1, H4, H5. repeat split; lia.
  - intros st0 Hd Hframe. rewrite (render_frame env st0 Hframe).
    eexists. split; [reflexivity|].
    unfold frame_events, display_events, sink_events. rewrite Hd.
    destruct (win_impl env (counter st0)) as [[[tx ty] sx] sy].
    destruct (sink st0) as [k|]; try destruct (sink_good k);
      cbn; repeat split; try reflexivity; tauto.
Qed.

End Display.

Lemma display_transform_witness :
  let args := some_args "in.mov" true false in
  let env := some_env 2 None [] in
  accepted args env models_on_disk
  ∧ doWindow args = true
  ∧ yields (video env) 2
  ∧ (0 < 2 ≤ size_max)%N
  ∧ (N.to_nat 2 < 3)%nat
  ∧ ∃ pre rest,
      trace (run args env 3 models_on_disk).2 = pre ++ rest
      ∧ count is_render_call pre = 0%nat
      ∧ count is_set_orientation pre = 1%nat
      ∧ count is_set_orientation rest = 0%nat
      ∧ count is_set_offset rest = 2%nat.
Proof.
  cbn zeta.
  assert (Hacc : accepted (some_args "in.mov" true false)
                   (some_env 2 None []) models_on_disk)
    by (vm_compute; reflexivity).
  assert (Hn : (0 < 2 ≤ size_max)%N) by (unfold size_max; lia).
  assert (Hfuel : (N.to_nat 2 < 3)%nat) by (cbn; lia).
  destruct (display_transform (some_args "in.mov" true false)
              (some_env 2 None []) 3 models_on_disk 2 Hacc eq_refl
              (clip_yields 2) Hn Hfuel)
    as (_ & (pre & rest & Ht & H1 & _ & H2 & _ & _ & H3 & H4 & _) & _).
  repeat split; try assumption; try apply clip_yields; try lia.
  exists pre, rest. auto.
Defined.

(** C8 as stated fails: in the state in which the loop of a windowed run
    starts, one call of [render] sets the offset and the display resolution
    again. *)
Lemma display_transform_counterexample :
  let args := some_args "in.mov" true false in
  let env := some_env 2 None [] in
  let st := configured args env models_on_disk in
  display st = true
  ∧ ∃ es,
      trace (render env st).2 = trace st ++ es
      ∧ ¬ (count is_set_offset es = 0%nat
           ∧ count is_set_resolution es = 0%nat).
Proof.
  cbn zeta. split; [reflexivity|].
  exists [EvRenderCall; EvPull 0; EvLogMean (image a_frame);
          EvUpload 2 2 GL_BGRA; EvDetect 2 2 1 GL_BGRA; EvDispSetOffset 0 0;
          EvDispSetDisplayResolution 1 1; EvDispUseTexture 2; EvDispRender;
          EvRenderRet true].
  split; [vm_compute; reflexivity|].
  intros [H _]. vm_compute in H. discriminate.
Qed.

(** ** Sink finalization *)

Lemma wait_events_cases schedule :
  releases false schedule = true
  ∧ wait_events schedule = [EvSignal; EvWaitReleased]
  ∨ releases false schedule = false
    ∧ (wait_events schedule = [EvSignal] ∨ wait_events schedule = []).
Proof.
  unfold wait_events.
  destruct (releases false schedule), (signals schedule); auto.
Qed.

Section Finalization.

Context {S : Type} `{!VideoSink S}.
Variable args : Args.
Variable env : Env S.

Lemma before_teardown fs (es : list Event) :
  forallb is_frame_event es = true →
  count is_teardown (setup_events args env fs ++ es) = 0%nat.
Proof.
  intros Hq. rewrite count_app.
  rewrite (count_disjoint is_teardown is_setup (setup_events args env fs))
    by (apply setup_events_setup || kinds).
  rewrite (count_disjoint is_teardown is_frame_event es)
    by (assumption || kinds).
  reflexivity.
Qed.

(** C6: when a sink exists at the end of a run that left its loop, the
    semaphore is created with count 0 and [end] is called, once each and
    after everything else.  The run returns (with 0) only in a trace that
    continues with exactly one signal of the completion callback followed by
    the release of the wait; while the callback has not signalled the main
    thread stays blocked and the run does not return. *)
Theorem sink_finalization fuel fs r (st : State S) :
  run args env fuel fs = (r, st) →
  sink st ≠ None → r ≠ OutOfFuel →
  ∃ pre,
    count is_teardown pre = 0%nat
    ∧ (r = Return 0
       ∧ trace st =
           pre ++ [EvSemaphoreNew 0; EvSinkEnd; EvSignal; EvWaitReleased]
       ∨ r = Blocked
         ∧ (trace st = pre ++ [EvSemaphoreNew 0; EvSinkEnd; EvSignal]
            ∨ trace st = pre ++ [EvSemaphoreNew 0; EvSinkEnd])).
Proof.
  intros Hrun Hs Hr.
  destruct (check_arguments_cases args env (initial fs))
    as [E | (z & qs & fs' & E & _)].
  2:{ destruct (run_rejected args env fuel fs) as (z' & es & fs'' & E' & _).
      - unfold accepted. rewrite E. discriminate.
      - rewrite E' in Hrun. injection Hrun as <- <-. contradiction. }
  assert (Hacc : accepted args env fs) by (unfold accepted; by rewrite E).
  destruct (Mat_empty (image (video env 0%N))) eqn:Hframe.
  { rewrite (run_no_frames args env fuel fs Hacc Hframe) in Hrun.
    injection Hrun as <- <-. contradiction. }
  destruct (run_started args env fuel fs Hacc Hframe)
    as (r' & st' & es & td & Hrun' & Ht & Hq & _ & _ & _ & Hend).
  rewrite Hrun in Hrun'. injection Hrun' as <- <-.
  destruct Hend as [[-> _] | [(Hnone & _) | (_ & -> & ->)]];
    [contradiction | contradiction |].
  exists (setup_events args env fs ++ es).
  split; [by apply before_teardown|].
  rewrite Ht, (app_assoc (setup_events args env fs) es).
  destruct (wait_events_cases (sched env)) as [[-> ->] | [-> [-> | ->]]];
    cbn [app]; cbn match; auto.
Qed.

(** C9: once the creation of the sink has succeeded, the run ends with the
    semaphore, the [end] call and the wait, for every behaviour of the
    sink's [begin] and [good]: the teardown tests nothing but the pointer.
    The run returns 0 when the schedule lets the callback and then the main
    thread run, and stays blocked in the wait otherwise. *)
Theorem teardown_unconditional fuel fs (n : N) (k : S) :
  accepted args env fs →
  yields (video env) n → (0 < n ≤ size_max)%N → (N.to_nat n < fuel)%nat →
  doMovie args = true →
  sink_create env (sOutput args +:+ "/movie.mov") ".mov" = Some k →
  let r := (run args env fuel fs).1 in
  let st := (run args env fuel fs).2 in
  sink st ≠ None
  ∧ count is_sink_end (trace st) = 1%nat
  ∧ (∃ pre,
       count is_teardown pre = 0%nat
       ∧ (r = Return 0
          ∧ trace st =
              pre ++ [EvSemaphoreNew 0; EvSinkEnd; EvSignal; EvWaitReleased]
          ∨ r = Blocked
            ∧ (trace st = pre ++ [EvSemaphoreNew 0; EvSinkEnd; EvSignal]
               ∨ trace st = pre ++ [EvSemaphoreNew 0; EvSinkEnd])))
  ∧ (∀ a b c, sched env = a ++ SinkThread :: b ++ MainThread :: c →
              r = Return 0).
Proof.
  intros Hacc Hy Hn Hfuel Hm Hk. cbn zeta.
  destruct (run_yields args env fuel fs n Hacc Hy Hn Hfuel)
    as (r & st & es & td & -> & Ht & _ & _ & _ & _ & _ & _ & _ & Hq & _
        & Hcfg & Hend).
  cbn [fst snd].
  assert (Hs : sink st ≠ None).
  { rewrite Hcfg. unfold configured_sink, movie. rewrite Hm, Hk.
    discriminate. }
  destruct Hend as [(Hnone & _) | (_ & -> & ->)]; [contradiction|].
  split; [assumption|].
  assert (Hpre := before_teardown fs es Hq).
  assert (Hpre' : count is_sink_end (setup_events args env fs ++ es) = 0%nat).
  { rewrite count_app.
    rewrite (count_disjoint is_sink_end is_setup (setup_events args env fs))
      by (apply setup_events_setup || kinds).
    rewrite (count_disjoint is_sink_end is_frame_event es)
      by (assumption || kinds).
    reflexivity. }
  rewrite Ht, (app_assoc (setup_events args env fs) es). split; [|split].
  - rewrite count_app, Hpre'.
    destruct (wait_events_cases (sched env)) as [[_ ->] | [_ [-> | ->]]];
      reflexivity.
  - exists (setup_events args env fs ++ es). split; [assumption|].
    destruct (wait_events_cases (sched env)) as [[-> ->] | [-> [-> | ->]]];
      cbn [app]; cbn match; auto.
  - intros a b c ->. by rewrite releases_fair.
Qed.

End Finalization.

Lemma sink_finalization_witness :
  let args := some_args "in.mov" false true in
  let env := some_env 2 (Some (fresh_recorder true 5))
                      [MainThread; SinkThread; MainThread] in
  ∃ st,
    run args env 3 models_on_disk = (Return 0, st)
    ∧ sink st ≠ None
    ∧ Return 0 ≠ (OutOfFuel : Res ())
    ∧ ∃ pre,
        count is_teardown pre = 0%nat
        ∧ trace st =
            pre ++ [EvSemaphoreNew 0; EvSinkEnd; EvSignal; EvWaitReleased].
Proof.
  cbn zeta.
  assert (Hrun :
    run (some_args "in.mov" false true)
        (some_env 2 (Some (fresh_recorder true 5))
           [MainThread; SinkThread; MainThread]) 3 models_on_disk
    = (Return 0,
       (run (some_args "in.mov" false true)
            (some_env 2 (Some (fresh_recorder true 5))
               [MainThread; SinkThread; MainThread]) 3 models_on_disk).2))
    by (vm_compute; reflexivity).
  assert (Hs :
    sink (run (some_args "in.mov" false true)
            (some_env 2 (Some (fresh_recorder true 5))
               [MainThread; SinkThread; MainThread]) 3 models_on_disk).2
    ≠ None) by (vm_compute; discriminate).
  assert (Hr : Return 0 ≠ (OutOfFuel : Res ())) by discriminate.
  eexists.
  split; [exact Hrun|]. split; [exact Hs|]. split; [exact Hr|].
  destruct (sink_finalization _ _ _ _ _ _ Hrun Hs Hr)
    as (pre & Hpre & [[_ Ht] | [Hb _]]).
  - exists pre. split; [exact Hpre | exact Ht].
  - discriminate Hb.
Defined.

Lemma teardown_unconditional_witness :
  let args := some_args "in.mov" false true in
  let env := some_env 2 (Some (fresh_recorder false 0))
                      [SinkThread; MainThread] in
  accepted args env models_on_disk
  ∧ yields (video env) 2
  ∧ (0 < 2 ≤ size_max)%N
  ∧ (N.to_nat 2 < 3)%nat
  ∧ doMovie args = true
  ∧ sink_create env (sOutput args +:+ "/movie.mov") ".mov"
    = Some (fresh_recorder false 0)
  ∧ sink_good (sink_begin (fresh_recorder false 0)) = false
  ∧ count is_sink_end (trace (run args env 3 models_on_disk).2) = 1%nat
  ∧ (run args env 3 models_on_disk).1 = Return 0.
Proof.
  cbn zeta.
  assert (Hacc : accepted (some_args "in.mov" false true)
                   (some_env 2 (Some (fresh_recorder false 0))
                      [SinkThread; MainThread]) models_on_disk)
    by (vm_compute; reflexivity).
  assert (Hn : (0 < 2 ≤ size_max)%N) by (unfold size_max; lia).
  assert (Hfuel : (N.to_nat 2 < 3)%nat) by (cbn; lia).
  destruct (teardown_unconditional (some_args "in.mov" false true)
              (some_env 2 (Some (fresh_recorder false 0))
                 [SinkThread; MainThread]) 3 models_on_disk 2
              (fresh_recorder false 0) Hacc (clip_yields 2) Hn Hfuel eq_refl
              eq_refl)
    as (_ & Hend & _ & Hlive).
  split; [exact Hacc|]. split; [apply clip_yields|]. split; [exact Hn|].
  split; [exact Hfuel|]. split; [reflexivity|]. split; [reflexivity|].
  split; [reflexivity|]. split; [exact Hend|].
  apply (Hlive [] [] []). reflexivity.
Defined.

(** * Further properties of the driver *)

(** ** The argument checks *)

Section Checks.

Context {S : Type} `{!VideoSink S}.
Variable args : Args.
Variable env : Env S.

(** X11: the model loop stops at the first path, in the order of the list,
    that is empty or names no file: it logs one line about that path and returns
    1, leaving everything else as it was; with no such path it falls
    through without any effect. *)
Theorem check_models_first_bad (config : list (string * string))
  (st : State S) :
  check_models config st =
    match List.find (λ c, negb (model_ok (files st) c.1)) config with
    | Some c => (Return 1, add [EvLogError (model_error c.1)] st)
    | None => (Ret (), st)
    end.
Proof.
  induction config as [|[m d] rest IH]; [reflexivity|].
  cbn [check_models List.find fst]. unfold checkModel, model_ok, model_error.
  run_monad. destruct (empty_str m) eqn:Em; cbn; rewrite ?Em;
    [reflexivity|].
  destruct (bool_decide (m ∈ files st)); cbn; rewrite ?Em;
    [exact IH | reflexivity].
Qed.

Lemma find_none_models (fs : gset string) (ms : list (string * string)) :
  List.find (λ c, negb (model_ok fs c.1)) ms = None
  ↔ Forall (λ m, m ≠ "" ∧ m ∈ fs) ms.*1.
Proof.
  induction ms as [|[m d] rest IH]; cbn [List.find fmap list_fmap fst].
  - split; [constructor | reflexivity].
  - rewrite Forall_cons, <- IH. unfold model_ok, empty_str.
    destruct (bool_decide_reflect (m = "")) as [-> | Hne]; cbn.
    + split; [discriminate | intros [[He _] _]; by destruct He].
    + destruct (bool_decide_reflect (m ∈ fs)) as [Hin | Hnin]; cbn.
      * tauto.
      * split; [discriminate | intros [[_ Hin] _]; contradiction].
Qed.

(** How the argument checks end: they fall through, or print the help and
    return 0, or return 1 after one error line, the probe file being
    removed or not according to whether the directory test was passed. *)
Lemma check_arguments_shapes (st : State S) :
  check_arguments args env st =
    (Ret (), mkState (files st ∖ {[probe args]}) (opengl st) (counter st)
                     (frame st) (sink st) (display st)
                     (trace st ++ [EvRemove (probe args)]))
  ∨ check_arguments args env st = (Return 0, add [EvHelp] st)
  ∨ ∃ msg,
      check_arguments args env st = (Return 1, add [EvLogError msg] st)
      ∨ check_arguments args env st =
          (Return 1,
           mkState (files st ∖ {[probe args]}) (opengl st) (counter st)
                   (frame st) (sink st) (display st)
                   (trace st ++ [EvRemove (probe args); EvLogError msg])).
Proof.
  unfold check_arguments, probe, add. run_monad.
  destruct (bool_decide (argc args ≤ 1) || help args); cbn -[check_models].
  { right; left. reflexivity. }
  destruct (empty_str (sOutput args)); cbn -[check_models].
  { right; right. eexists. left. reflexivity. }
  destruct (dir_writable env (sOutput args) ".drishti-hci");
    cbn -[check_models].
  2:{ right; right. eexists. left. reflexivity. }
  destruct (empty_str (sInput args)); cbn -[check_models].
  { right; right. eexists. right. flatten_trace. reflexivity. }
  destruct (lnot (find (sInput args) ".test")); cbn -[check_models];
    try (destruct (bool_decide (sInput args ∈ _)); cbn -[check_models]);
    try (right; right; eexists; right; flatten_trace; reflexivity);
    rewrite check_models_first_bad;
    (destruct (List.find _ _);
     [right; right; eexists; right; unfold add; cbn; flatten_trace;
      reflexivity
     |left; reflexivity]).
Qed.

Lemma run_of_rejection fuel fs z (st : State S) :
  check_arguments args env (initial fs) = (Return z, st) →
  run args env fuel fs = (Return z, st).
Proof.
  intros E. unfold run, drishti_main. unfold mbind, M_bind. by rewrite E.
Qed.

(** X1: with no argument, or with the help option, the run prints the help
    and returns 0 without touching the file system, whatever the other
    options are. *)
Theorem help_first fuel fs :
  argc args ≤ 1 ∨ help args = true →
  run args env fuel fs = (Return 0, add [EvHelp] (initial fs)).
Proof.
  intros H. apply run_of_rejection. unfold check_arguments. run_monad.
  assert (bool_decide (argc args ≤ 1) || help args = true) as ->.
  { destruct H as [H | ->]; [|apply orb_true_r].
    by rewrite bool_decide_eq_true_2. }
  reflexivity.
Qed.

(** X2: the command line passes the argument checks exactly when there is
    an argument and no help option, the output directory is given and
    writable, the input is given and, if its path begins with ".test",
    exists, and each of the four model paths is non-empty and names a file;
    files are looked up after the removal of the probe file. *)
Theorem accepted_iff fs :
  accepted args env fs ↔
    1 < argc args
    ∧ help args = false
    ∧ sOutput args ≠ ""
    ∧ dir_writable env (sOutput args) ".drishti-hci" = true
    ∧ sInput args ≠ ""
    ∧ (String.prefix ".test" (sInput args) = true →
       sInput args ∈ fs ∖ {[probe args]})
    ∧ Forall (λ m, m ≠ "" ∧ m ∈ fs ∖ {[probe args]}) (models args).
Proof.
  unfold accepted, check_arguments, probe, models, empty_str.
  rewrite lnot_find. run_monad.
  destruct (bool_decide_reflect (argc args ≤ 1)) as [Ha | Ha];
    cbn -[check_models].
  { split; [discriminate | lia]. }
  destruct (help args); cbn -[check_models].
  { split; [discriminate | intros (_ & ? & _); discriminate]. }
  destruct (bool_decide_reflect (sOutput args = "")) as [Ho | Ho];
    cbn -[check_models].
  { split; [discriminate | tauto]. }
  destruct (dir_writable env (sOutput args) ".drishti-hci");
    cbn -[check_models].
  2:{ split; [discriminate | intros (_ & _ & _ & ? & _); discriminate]. }
  destruct (bool_decide_reflect (sInput args = "")) as [Hi | Hi];
    cbn -[check_models].
  { split; [discriminate | tauto]. }
  assert (Hm : ∀ tr,
    (check_models
       [(sFaceDetector args, "face-detector");
        (sFaceDetectorMean args, "face-detector-mean");
        (sFaceRegressor args, "face-regressor");
        (sEyeRegressor args, "eye-regressor")]
       (mkState (fs ∖ {[sOutput args +:+ "/.drishti-hci"]})
                (mkGL false false) 0%N no_frame (None : option S) false
                tr)).1 = Ret ()
    ↔ Forall (λ m, m ≠ "" ∧ m ∈ fs ∖ {[sOutput args +:+ "/.drishti-hci"]})
        [sFaceDetector args; sFaceDetectorMean args; sFaceRegressor args;
         sEyeRegressor args]).
  { intros tr. rewrite check_models_first_bad. cbn [files].
    rewrite <- (find_none_models _
      [(sFaceDetector args, "face-detector");
       (sFaceDetectorMean args, "face-detector-mean");
       (sFaceRegressor args, "face-regressor");
       (sEyeRegressor args, "eye-regressor")]).
    destruct (List.find _ _); split; (discriminate || reflexivity). }
  destruct (String.prefix ".test" (sInput args)); cbn -[check_models].
  - destruct (bool_decide_reflect
                (sInput args ∈ fs ∖ {[sOutput args +:+ "/.drishti-hci"]}))
      as [Hin | Hin]; cbn -[check_models].
    + rewrite Hm. split; [intros; repeat split; auto; lia | tauto].
    + split; [discriminate | intros (_ & _ & _ & _ & _ & Hp & _)].
      exfalso. auto.
  - rewrite Hm.
    split; [intros; repeat split; auto; (lia || discriminate) | tauto].
Qed.

(** X3: a command line that does not pass the argument checks ends the run
    with 0 after the help text or with 1 after exactly one error line; the
    GL resource is not created, the frame source is not opened, and the
    file system is left as it was except for the probe file, which is
    removed when the error comes after the directory test. *)
Theorem rejected_run fuel fs :
  ¬ accepted args env fs →
  let r := (run args env fuel fs).1 in
  let st := (run args env fuel fs).2 in
  opengl st = mkGL false false ∧ sink st = None ∧ display st = false
  ∧ (r = Return 0 ∧ trace st = [EvHelp] ∧ files st = fs
     ∨ r = Return 1
       ∧ ∃ msg, trace st = [EvLogError msg] ∧ files st = fs
                ∨ trace st = [EvRemove (probe args); EvLogError msg]
                  ∧ files st = fs ∖ {[probe args]}).
Proof.
  intros Hrej. cbn zeta.
  destruct (check_arguments_shapes (initial fs))
    as [E | [E | [msg [E | E]]]].
  - exfalso. apply Hrej. unfold accepted. by rewrite E.
  - rewrite (run_of_rejection fuel fs _ _ E). cbn.
    repeat split. left. auto.
  - rewrite (run_of_rejection fuel fs _ _ E). cbn.
    repeat split. right. split; [reflexivity|]. exists msg. left. auto.
  - rewrite (run_of_rejection fuel fs _ _ E). cbn.
    repeat split. right. split; [reflexivity|]. exists msg. right. auto.
Qed.

End Checks.

Lemma help_first_witness :
  let args := mkArgs 2 true "" "" false false 0 0 "" "" "" "" in
  (argc args ≤ 1 ∨ help args = true)
  ∧ run args (some_env 2 None []) 3 models_on_disk
    = (Return 0, add [EvHelp] (initial models_on_disk)).
Proof.
  cbn zeta.
  assert (H : argc (mkArgs 2 true "" "" false false 0 0 "" "" "" "") ≤ 1
              ∨ help (mkArgs 2 true "" "" false false 0 0 "" "" "" "") = true)
    by (right; reflexivity).
  split; [exact H|].
  exact (help_first (mkArgs 2 true "" "" false false 0 0 "" "" "" "")
           (some_env 2 None []) 3 models_on_disk H).
Defined.

Lemma rejected_run_witness :
  let args := some_args "" false false in
  let env := some_env 2 None [] in
  let fs := models_on_disk ∪ {[ "out/.drishti-hci" ]} in
  ¬ accepted args env fs
  ∧ (run args env 3 fs).1 = Return 1
  ∧ sink (run args env 3 fs).2 = None.
Proof.
  cbn zeta.
  assert (Hrej : ¬ accepted (some_args "" false false) (some_env 2 None [])
                   (models_on_disk ∪ {[ "out/.drishti-hci" ]}))
    by (vm_compute; discriminate).
  destruct (rejected_run (some_args "" false false) (some_env 2 None []) 3
              (models_on_disk ∪ {[ "out/.drishti-hci" ]}) Hrej)
    as (_ & Hs & _ & _).
  split; [exact Hrej|]. split; [vm_compute; reflexivity | exact Hs].
Defined.

(** ** What a run never does *)

Section Never.

Context {S : Type} `{!VideoSink S}.
Variable args : Args.
Variable env : Env S.

(** The three ways a run can go: rejected by the argument checks, stopped
    by an empty first frame, or through the loop and the teardown. *)
Lemma run_shapes fuel fs :
  (¬ accepted args env fs
   ∧ (run args env fuel fs = (Return 0, add [EvHelp] (initial fs))
      ∨ ∃ msg,
          run args env fuel fs = (Return 1, add [EvLogError msg] (initial fs))
          ∨ run args env fuel fs =
              (Return 1,
               mkState (fs ∖ {[probe args]}) (mkGL false false) 0%N no_frame
                       None false [EvRemove (probe args); EvLogError msg])))
  ∨ (accepted args env fs
     ∧ Mat_empty (image (video env 0%N)) = true
     ∧ run args env fuel fs =
         (Return (-1),
          mkState (fs ∖ {[probe args]})
                  (mkGL (doWindow args) (negb (doWindow args))) 0%N
                  (video env 0%N) None false
                  ([EvRemove (probe args)] ++ open_events args ++
                   [EvLogInfo "No frames available in video"])))
  ∨ (accepted args env fs
     ∧ Mat_empty (image (video env 0%N)) = false
     ∧ run args env fuel fs =
         (drive (present (doWindow args)) (render env) fuel;; teardown env)
           (configured args env fs)).
Proof.
  destruct (check_arguments_shapes args env (initial fs))
    as [E | [E | [msg [E | E]]]].
  - assert (Hacc : accepted args env fs) by (unfold accepted; by rewrite E).
    destruct (Mat_empty (image (video env 0%N))) eqn:Hframe.
    + right; left. auto using run_no_frames.
    + right; right. auto using run_accepted.
  - left. split; [unfold accepted; rewrite E; discriminate|].
    left. by apply run_of_rejection.
  - left. split; [unfold accepted; rewrite E; discriminate|].
    right. exists msg. left. by apply run_of_rejection.
  - left. split; [unfold accepted; rewrite E; discriminate|].
    right. exists msg. right. by apply run_of_rejection.
Qed.

(** A loop invariant on the display flag and the sink, with a kind of
    events that every frame respects under it. *)
Lemma drive_forall (q : Event → bool) (P : bool → option S → Prop) w :
  q EvRenderCall = true → (∀ i, q (EvPull i) = true) →
  (∀ b, q (EvRenderRet b) = true) →
  (w = true → q EvWindowPresent = true) →
  (∀ st : State S, P (display st) (sink st) →
     forallb q (frame_events env st) = true) →
  (∀ d k i, P d k → P d (sink_after env i k)) →
  ∀ fuel (st : State S),
    P (display st) (sink st) →
    ∃ r st' es,
      drive (present w) (render env) fuel st = (r, st')
      ∧ (r = Ret () ∨ r = OutOfFuel)
      ∧ trace st' = trace st ++ es
      ∧ forallb q es = true
      ∧ P (display st') (sink st').
Proof.
  intros Hcall Hpull Hret Hpresent Hframe Hsink fuel.
  induction fuel as [|fuel IH]; intros st HP.
  { exists OutOfFuel, st, []. rewrite app_nil_r. cbn. tauto. }
  cbn [drive]. unfold mbind at 1, M_bind at 1.
  destruct (Mat_empty (image (video env (counter st)))) eqn:E.
  - rewrite (render_empty env st E).
    eexists (Ret ()), _,
      [EvRenderCall; EvPull (counter st); EvRenderRet false].
    split; [reflexivity|]. cbn [trace display sink forallb].
    rewrite Hcall, Hpull, Hret. cbn. tauto.
  - rewrite (render_frame env st E). cbn match.
    unfold mbind at 1, M_bind at 1.
    match goal with |- context [present w ?s] =>
      destruct (present_spec w s) as (ps & -> & Hps);
      destruct (IH (add ps s)) as (r & st' & es & -> & Hr & Ht & Hq & HP')
    end.
    { cbn [add display sink]. by apply Hsink. }
    exists r, st', ([EvRenderCall; EvPull (counter st)] ++
                   frame_events env st ++ [EvRenderRet true] ++ ps ++ es).
    split; [reflexivity|]. cbn [add trace] in Ht.
    repeat split; try assumption.
    + rewrite Ht. rewrite <- !app_assoc. reflexivity.
    + cbn [app forallb]. rewrite Hcall, Hpull. cbn [andb].
      apply forallb_app_true; [by apply Hframe|].
      cbn [app forallb]. rewrite Hret. cbn [andb].
      apply forallb_app_true; [|assumption].
      subst ps. destruct w; [|reflexivity]. cbn. by rewrite Hpresent.
Qed.

Lemma count_none (p : Event → bool) (es : list Event) :
  forallb (λ e, negb (p e)) es = true → count p es = 0%nat.
Proof.
  apply count_disjoint. intros e. by destruct (p e).
Qed.

(** A run that starts its loop, with the invariant carried through the
    loop and the two ways the teardown can go. *)
Lemma run_started_forall (q : Event → bool) (P : bool → option S → Prop)
  fuel fs :
  q EvRenderCall = true → (∀ i, q (EvPull i) = true) →
  (∀ b, q (EvRenderRet b) = true) →
  (doWindow args = true → q EvWindowPresent = true) →
  (∀ st : State S, P (display st) (sink st) →
     forallb q (frame_events env st) = true) →
  (∀ d k i, P d k → P d (sink_after env i k)) →
  accepted args env fs →
  Mat_empty (image (video env 0%N)) = false →
  P (doWindow args) (configured_sink args env (video env 0%N)) →
  ∃ r st es td,
    run args env fuel fs = (r, st)
    ∧ trace st = setup_events args env fs ++ es ++ td
    ∧ forallb q es = true
    ∧ (td = [] ∧ (r = OutOfFuel ∨ r = Return 0 ∧ sink st = None)
       ∧ P (display st) (sink st)
       ∨ ∃ k, P (display st) (Some k)
              ∧ sink st = Some (sink_end k)
              ∧ td = [EvSemaphoreNew 0; EvSinkEnd] ++ wait_events (sched env)
              ∧ r = (if releases false (sched env) then Return 0
                     else Blocked)).
Proof.
  intros Hcall Hpull Hret Hpresent Hframe Hsink Hacc Hfirst HP.
  rewrite (run_accepted args env fuel fs Hacc Hfirst). unfold mbind, M_bind.
  destruct (drive_forall q P (doWindow args) Hcall Hpull Hret Hpresent Hframe
              Hsink fuel (configured args env fs) HP)
    as (r & st' & es & -> & Hr & Ht & Hq & HP').
  cbn [configured trace] in Ht.
  destruct Hr as [-> | ->]; cbn match.
  - rewrite teardown_spec. destruct (sink st') as [k|] eqn:Hs.
    + eexists _, _, es, _. split; [reflexivity|]. cbn [trace sink display].
      rewrite Ht, <- !app_assoc. split; [reflexivity|].
      split; [assumption|]. right. exists k. auto.
    + exists (Return 0), st', es, []. rewrite app_nil_r.
      split; [reflexivity|]. split; [assumption|]. split; [assumption|].
      left. rewrite ?Hs. auto.
  - exists OutOfFuel, st', es, []. rewrite app_nil_r.
    split; [reflexivity|]. split; [assumption|]. split; [assumption|].
    left. auto.
Qed.

(** X4: a run ends with status 0, 1 or -1, or it does not end (blocked in
    the wait, or still in the loop).  Status 1 is given only by the
    argument checks, status -1 exactly when the arguments pass and the
    first frame is empty, and a run can only hang after the arguments have
    passed and a first frame has been pulled. *)
Theorem exit_status fuel fs :
  let r := (run args env fuel fs).1 in
  (r = Return 0 ∨ r = Return 1 ∨ r = Return (-1) ∨ r = Blocked
   ∨ r = OutOfFuel)
  ∧ (r = Return 1 → ¬ accepted args env fs)
  ∧ (r = Return (-1) ↔
     accepted args env fs ∧ Mat_empty (image (video env 0%N)) = true)
  ∧ (r = Blocked ∨ r = OutOfFuel →
     accepted args env fs ∧ Mat_empty (image (video env 0%N)) = false).
Proof.
  cbn zeta.
  destruct (run_shapes fuel fs)
    as [[Hrej [E | [msg [E | E]]]] | [(Hacc & Hf & E) | (Hacc & Hf & _)]];
    try (rewrite E; cbn [fst];
         split; [auto 6|];
         split; [first [discriminate | intros _; exact Hrej]|];
         split;
         [split;
          [first [discriminate | auto]
          |first [intros [Ha _]; contradiction | auto]]|];
         intros [? | ?]; discriminate).
  destruct (run_started args env fuel fs Hacc Hf)
    as (r & st & es & td & -> & _ & _ & _ & _ & _ & Hend).
  cbn [fst].
  assert (Hr : r = OutOfFuel ∨ r = Return 0 ∨ r = Blocked).
  { destruct Hend as [[-> _] | [(_ & -> & _) | (_ & _ & ->)]]; auto.
    destruct (releases false (sched env)); auto. }
  split; [tauto|]. split.
  { intros ->. destruct Hr as [? | [? | ?]]; discriminate. }
  split; [|auto].
  split.
  - intros ->. destruct Hr as [? | [? | ?]]; discriminate.
  - intros [_ Hf']. congruence.
Qed.


End Never.

(** ** The GL resource, the sink and the frame source over a whole run *)

Lemma forallb_weaken {A} (p q : A → bool) (l : list A) :
  (∀ a, p a = true → q a = true) →
  forallb p l = true → forallb q l = true.
Proof.
  intros Hpq. induction l as [|a l IH]; [done|]. cbn [forallb].
  intros [Ha Hl]%andb_prop. by rewrite (Hpq a Ha), IH.
Qed.

Lemma writes_app (a b : list Event) : writes (a ++ b) = writes a ++ writes b.
Proof. unfold writes. apply omap_app. Qed.

Lemma writes_none (q : Event → bool) (es : list Event) :
  (∀ e, q e = true → is_sink_write e = false) →
  forallb q es = true → writes es = [].
Proof.
  intros Hq. induction es as [|e es IH]; [done|].
  cbn [forallb]. intros [He Hes]%andb_prop.
  specialize (Hq e He). unfold writes in *. cbn [omap].
  destruct e; try discriminate; cbn; auto.
Qed.

Section Variants.

Context {S : Type} `{!VideoSink S}.
Variable args : Args.
Variable env : Env S.

Lemma teardown_events_teardown :
  forallb is_teardown
    ([EvSemaphoreNew 0; EvSinkEnd] ++ wait_events (sched env)) = true.
Proof. cbn [app forallb is_teardown andb]. apply wait_events_teardown. Qed.

(** X6: the two variants of the GL resource exclude each other over the
    whole run.  Without the window option no call is ever made on a window
    or on a display; with it no call is ever made on a headless context. *)
Theorem gl_variants fuel fs :
  let tr := trace (run args env fuel fs).2 in
  if doWindow args then count is_context_event tr = 0%nat
  else count is_window_event tr = 0%nat.
Proof.
  cbn zeta.
  destruct (run_shapes args env fuel fs)
    as [[Hrej [E | [msg [E | E]]]] | [(Hacc & Hf & E) | (Hacc & Hf & _)]];
    try (rewrite E; cbn [snd trace]; unfold open_events;
         destruct (doWindow args); reflexivity).
  destruct (doWindow args) eqn:Hw.
  - destruct (run_started_forall args env (λ e, negb (is_context_event e))
                (λ _ _, True) fuel fs)
      as (r & st & es & td & -> & Ht & Hq & Hend);
      try (reflexivity || assumption || done).
    { intros st _. eapply forallb_weaken; [|apply frame_events_frame]. kinds. }
    cbn [snd]. rewrite Ht, !count_app, (count_none _ es Hq).
    assert (count is_context_event (setup_events args env fs) = 0%nat) as ->.
    { unfold setup_events, open_events, configure_events. cbn [window].
      rewrite Hw.
      destruct (bool_decide (movie args ∈ fs ∖ {[probe args]})),
        (doMovie args), (sink_create env (movie args) ".mov"); reflexivity. }
    destruct Hend as [(-> & _) | (k & _ & _ & -> & _)]; [reflexivity|].
    rewrite (count_disjoint is_context_event is_teardown)
      by (apply teardown_events_teardown || kinds).
    reflexivity.
  - destruct (run_started_forall args env (λ e, negb (is_window_event e))
                (λ d _, d = false) fuel fs)
      as (r & st & es & td & -> & Ht & Hq & Hend);
      try (reflexivity || assumption || done).
    { intros Hw'. congruence. }
    { intros st Hd. unfold frame_events, sink_events. rewrite Hd.
      destruct (sink st) as [k|]; try destruct (sink_good k); reflexivity. }
    cbn [snd]. rewrite Ht, !count_app, (count_none _ es Hq).
    assert (count is_window_event (setup_events args env fs) = 0%nat) as ->.
    { unfold setup_events, open_events, configure_events. cbn [window].
      rewrite Hw.
      destruct (bool_decide (movie args ∈ fs ∖ {[probe args]})),
        (doMovie args), (sink_create env (movie args) ".mov"); reflexivity. }
    destruct Hend as [(-> & _) | (k & _ & _ & -> & _)]; [reflexivity|].
    rewrite (count_disjoint is_window_event is_teardown)
      by (apply teardown_events_teardown || kinds).
    reflexivity.
Qed.

(** X7: when no movie is asked for, or when the creation of the sink
    returns a null pointer, the run goes on without a sink: no call is ever
    made on a sink or on a semaphore, and the run cannot block in the
    teardown. *)
Theorem no_sink_no_traffic fuel fs :
  doMovie args = false
  ∨ sink_create env (sOutput args +:+ "/movie.mov") ".mov" = None →
  let r := (run args env fuel fs).1 in
  let st := (run args env fuel fs).2 in
  count is_sink_traffic (trace st) = 0%nat
  ∧ sink st = None
  ∧ r ≠ Blocked.
Proof.
  intros Hno. cbn zeta.
  assert (Hcfg : configured_sink args env (video env 0%N) = None).
  { unfold configured_sink, movie.
    destruct Hno as [-> | ->]; [reflexivity | by destruct (doMovie args)]. }
  destruct (run_shapes args env fuel fs)
    as [[Hrej [E | [msg [E | E]]]] | [(Hacc & Hf & E) | (Hacc & Hf & _)]];
    try (rewrite E; cbn [fst snd trace sink]; unfold open_events;
         repeat split; try discriminate;
         destruct (doWindow args); reflexivity).
  destruct (run_started_forall args env (λ e, negb (is_sink_traffic e))
              (λ _ k, k = None) fuel fs)
    as (r & st & es & td & -> & Ht & Hq & Hend);
    try (reflexivity || assumption || done).
  { intros st Hs. unfold frame_events, display_events, sink_events.
    rewrite Hs. destruct (win_impl env (counter st)) as [[[tx ty] sx] sy].
    destruct (display st); reflexivity. }
  { intros d k i ->. reflexivity. }
  destruct Hend as [(-> & Hr & Hs) | (k & Hk & _)]; [|discriminate].
  cbn [fst snd]. rewrite Ht, !count_app, (count_none _ es Hq).
  assert (count is_sink_traffic (setup_events args env fs) = 0%nat) as ->.
  { unfold setup_events, open_events, configure_events. cbn [window].
    unfold movie.
    destruct Hno as [-> | ->];
      destruct (doWindow args),
        (bool_decide (sOutput args +:+ "/movie.mov" ∈ fs ∖ {[probe args]}));
      try destruct (doMovie args); try reflexivity;
      destruct (sink_create env _ _); reflexivity. }
  split; [reflexivity|]. split; [assumption|].
  destruct Hr as [-> | [-> _]]; discriminate.
Qed.

(** X8: a sink whose [good()] is false once [begin] has been called (a
    failed [begin]) is never asked for pixels and never written to during
    the run, since only a write changes the sink before the teardown. *)
Theorem bad_sink_never_written fuel fs (k : S) :
  doMovie args = true →
  sink_create env (sOutput args +:+ "/movie.mov") ".mov" = Some k →
  sink_good
    (sink_begin
       (sink_setProperties
          (frame_cols (video env 0%N), frame_rows (video env 0%N)) k))
  = false →
  let st := (run args env fuel fs).2 in
  count is_get_pixels (trace st) = 0%nat
  ∧ count is_sink_write (trace st) = 0%nat.
Proof.
  intros Hm Hk Hbad. cbn zeta.
  destruct (run_shapes args env fuel fs)
    as [[Hrej [E | [msg [E | E]]]] | [(Hacc & Hf & E) | (Hacc & Hf & _)]];
    try (rewrite E; cbn [snd trace]; unfold open_events;
         destruct (doWindow args); split; reflexivity).
  destruct (run_started_forall args env
              (λ e, negb (is_get_pixels e) && negb (is_sink_write e))
              (λ _ o, ∀ k', o = Some k' → sink_good k' = false) fuel fs)
    as (r & st & es & td & -> & Ht & Hq & Hend);
    try (reflexivity || assumption || done).
  { intros st Hs. unfold frame_events, display_events, sink_events.
    destruct (win_impl env (counter st)) as [[[tx ty] sx] sy].
    destruct (sink st) as [k'|]; [rewrite (Hs k' eq_refl)|];
      destruct (display st); reflexivity. }
  { intros d o i Ho k'. destruct o as [k0|]; [|discriminate].
    cbn [sink_after]. rewrite (Ho k0 eq_refl). exact (Ho k'). }
  { unfold configured_sink, movie. rewrite Hm, Hk. intros k' [= <-].
    exact Hbad. }
  cbn [snd].
  assert (Htd : forallb is_teardown td = true).
  { destruct Hend as [(-> & _) | (k' & _ & _ & -> & _)];
      [reflexivity | apply teardown_events_teardown]. }
  rewrite Ht, !count_app.
  rewrite !(count_disjoint _ is_setup (setup_events args env fs))
    by (apply setup_events_setup || kinds).
  rewrite !(count_disjoint _ is_teardown td) by (assumption || kinds).
  rewrite (count_disjoint is_get_pixels
             (λ e, negb (is_get_pixels e) && negb (is_sink_write e)) es),
    (count_disjoint is_sink_write
       (λ e, negb (is_get_pixels e) && negb (is_sink_write e)) es)
    by (assumption || (intros e He; destruct e; cbn in *; congruence)).
  split; reflexivity.
Qed.

End Variants.

Section Stream.

Context {S : Type} `{!VideoSink S}.
Variable args : Args.
Variable env : Env S.

Lemma drive_endless w :
  (∀ i, Mat_empty (image (video env i)) = false) →
  ∀ fuel (st : State S),
    ∃ st' es,
      drive (present w) (render env) fuel st = (OutOfFuel, st')
      ∧ trace st' = trace st ++ es
      ∧ count is_render_call es = fuel.
Proof.
  intros Hall fuel. induction fuel as [|fuel IH]; intros st.
  { exists st, []. by rewrite app_nil_r. }
  cbn [drive]. unfold mbind at 1, M_bind at 1.
  rewrite (render_frame env st (Hall _)). cbn match.
  unfold mbind at 1, M_bind at 1.
  match goal with |- context [present w ?s] =>
    destruct (present_spec w s) as (ps & -> & Hps);
    destruct (IH (add ps s)) as (st' & es & -> & Ht & Hc)
  end.
  exists st', ([EvRenderCall; EvPull (counter st)] ++
               frame_events env st ++ [EvRenderRet true] ++ ps ++ es).
  split; [reflexivity|]. cbn [add trace] in Ht. split.
  - rewrite Ht, <- !app_assoc. reflexivity.
  - destruct (frame_events_counts env st) as (_ & F1 & _).
    rewrite !count_app, F1, Hc. subst ps. destruct w; cbn; lia.
Qed.

(** X9: on a frame source that never returns an empty frame the loop never
    ends: whatever the fuel, the run is still in the loop when the fuel is
    used up, after as many calls of [render] as there was fuel. *)
Theorem endless_source fuel fs :
  accepted args env fs →
  (∀ i, Mat_empty (image (video env i)) = false) →
  (run args env fuel fs).1 = OutOfFuel
  ∧ count is_render_call (trace (run args env fuel fs).2) = fuel.
Proof.
  intros Hacc Hall.
  rewrite (run_accepted args env fuel fs Hacc (Hall _)).
  unfold mbind, M_bind.
  destruct (drive_endless (doWindow args) Hall fuel (configured args env fs))
    as (st' & es & -> & Ht & Hc).
  cbn [fst snd configured trace] in *. split; [reflexivity|].
  rewrite Ht, count_app, Hc.
  rewrite (count_disjoint is_render_call is_setup (setup_events args env fs))
    by (apply setup_events_setup || kinds).
  reflexivity.
Qed.

Lemma frame_events_writes (st : State S) :
  writes (frame_events env st) =
    match sink st with
    | Some k =>
        if sink_good k then [detector_pixels env (counter st)] else []
    | None => []
    end.
Proof.
  unfold frame_events, display_events, sink_events.
  destruct (win_impl env (counter st)) as [[[tx ty] sx] sy].
  destruct (display st), (sink st) as [k|]; try destruct (sink_good k);
    reflexivity.
Qed.

Lemma drive_writes w (n : N) (k : nat) : ∀ fuel (st : State S),
  yields (video env) n → (n ≤ size_max)%N →
  (counter st + N.of_nat k = n)%N → (k < fuel)%nat →
  ∃ st' es,
    drive (present w) (render env) fuel st = (Ret (), st')
    ∧ trace st' = trace st ++ es
    ∧ writes es =
        match sink st with
        | Some s => fed s (map (detector_pixels env) (upto (counter st) k))
        | None => []
        end.
Proof.
  induction k as [|k IH]; intros fuel st Hy Hn Hc Hfuel;
    (destruct fuel as [|fuel]; [lia|]);
    cbn [drive]; unfold mbind at 1, M_bind at 1.
  - assert (E : Mat_empty (image (video env (counter st))) = true).
    { rewrite Hy. apply bool_decide_eq_true. lia. }
    rewrite (render_empty env st E). eexists _, _.
    split; [reflexivity|]. split; [reflexivity|].
    by destruct (sink st).
  - assert (E : Mat_empty (image (video env (counter st))) = false).
    { rewrite Hy. apply bool_decide_eq_false. lia. }
    rewrite (render_frame env st E). cbn match.
    unfold mbind at 1, M_bind at 1.
    match goal with |- context [present w ?s] =>
      destruct (present_spec w s) as (ps & -> & Hps);
      destruct (IH fuel (add ps s) Hy Hn) as (st' & es & -> & Ht & Hw)
    end.
    { cbn [add counter]. rewrite incr_small by lia. lia. }
    { lia. }
    cbn [add sink trace counter] in Ht, Hw.
    rewrite incr_small in Hw by lia.
    exists st', ([EvRenderCall; EvPull (counter st)] ++
                 frame_events env st ++ [EvRenderRet true] ++ ps ++ es).
    split; [reflexivity|].
    split; [rewrite Ht; rewrite <- !app_assoc; reflexivity|].
    rewrite !writes_app, frame_events_writes, Hw.
    assert (writes ps = []) as -> by (subst ps; by destruct w).
    cbn [upto map fed writes omap app].
    destruct (sink st) as [s|]; [|reflexivity].
    cbn [sink_after fed]. by destruct (sink_good s).
Qed.

(** X10: over a run on a source of [n] frames, the sink receives the
    detector outputs of the frames 0 to n-1 in pull order, each one exactly
    if [good()] holds when its frame is rendered: the writes are what the
    sink takes when it is offered these images one after the other,
    starting from its state after [begin]. *)
Theorem writes_in_pull_order fuel fs (n : N) (k : S) :
  accepted args env fs →
  yields (video env) n → (0 < n ≤ size_max)%N → (N.to_nat n < fuel)%nat →
  doMovie args = true →
  sink_create env (sOutput args +:+ "/movie.mov") ".mov" = Some k →
  writes (trace (run args env fuel fs).2) =
    fed (sink_begin
           (sink_setProperties
              (frame_cols (video env 0%N), frame_rows (video env 0%N)) k))
        (map (detector_pixels env) (upto 0 (N.to_nat n))).
Proof.
  intros Hacc Hy Hn Hfuel Hm Hk.
  assert (Hframe : Mat_empty (image (video env 0%N)) = false).
  { rewrite Hy. apply bool_decide_eq_false. lia. }
  rewrite (run_accepted args env fuel fs Hacc Hframe). unfold mbind, M_bind.
  destruct (drive_writes (doWindow args) n (N.to_nat n) fuel
              (configured args env fs) Hy)
    as (st' & es & -> & Ht & Hw); [lia | cbn; lia | lia |].
  cbn [configured counter sink trace] in Ht, Hw.
  unfold configured_sink, movie in Hw. rewrite Hm, Hk in Hw.
  cbn match. rewrite teardown_spec.
  assert (Hpre : writes (trace st') =
                 fed (sink_begin
                        (sink_setProperties
                           (frame_cols (video env 0%N),
                            frame_rows (video env 0%N)) k))
                     (map (detector_pixels env) (upto 0 (N.to_nat n)))).
  { rewrite Ht, writes_app, Hw.
    rewrite (writes_none is_setup (setup_events args env fs))
      by (apply setup_events_setup || kinds).
    reflexivity. }
  destruct (sink st') as [s|]; cbn [snd trace]; [|exact Hpre].
  rewrite writes_app, Hpre.
  rewrite (writes_none is_teardown)
    by (apply teardown_events_teardown || kinds).
  by rewrite app_nil_r.
Qed.

End Stream.

Lemma no_sink_no_traffic_witness :
  let args := some_args "in.mov" false true in
  let env := some_env 2 None [] in
  (doMovie args = false
   ∨ sink_create env (sOutput args +:+ "/movie.mov") ".mov" = None)
  ∧ (run args env 3 models_on_disk).1 = Return 0
  ∧ count is_sink_traffic (trace (run args env 3 models_on_disk).2) = 0%nat.
Proof.
  cbn zeta.
  assert (H : doMovie (some_args "in.mov" false true) = false
              ∨ sink_create (some_env 2 None [])
                  (sOutput (some_args "in.mov" false true) +:+ "/movie.mov")
                  ".mov" = None) by (right; reflexivity).
  destruct (no_sink_no_traffic (some_args "in.mov" false true)
              (some_env 2 None []) 3 models_on_disk H) as (Hc & _ & _).
  split; [exact H|]. split; [vm_compute; reflexivity | exact Hc].
Defined.

Lemma bad_sink_never_written_witness :
  let args := some_args "in.mov" false true in
  let env := some_env 2 (Some (fresh_recorder false 5)) [] in
  doMovie args = true
  ∧ sink_create env (sOutput args +:+ "/movie.mov") ".mov"
    = Some (fresh_recorder false 5)
  ∧ sink_good
      (sink_begin
         (sink_setProperties
            (frame_cols (video env 0%N), frame_rows (video env 0%N))
            (fresh_recorder false 5))) = false
  ∧ count is_get_pixels (trace (run args env 3 models_on_disk).2) = 0%nat
  ∧ count is_sink_write (trace (run args env 3 models_on_disk).2) = 0%nat.
Proof.
  cbn zeta. split; [reflexivity|]. split; [reflexivity|].
  split; [reflexivity|].
  exact (bad_sink_never_written (some_args "in.mov" false true)
           (some_env 2 (Some (fresh_recorder false 5)) []) 3 models_on_disk
           (fresh_recorder false 5) eq_refl eq_refl eq_refl).
Defined.

Lemma endless_source_witness :
  let args := some_args "in.mov" false false in
  accepted args endless_env models_on_disk
  ∧ (∀ i, Mat_empty (image (video endless_env i)) = false)
  ∧ (run args endless_env 7 models_on_disk).1 = OutOfFuel
  ∧ count is_render_call (trace (run args endless_env 7 models_on_disk).2)
    = 7%nat.
Proof.
  cbn zeta.
  assert (Hacc : accepted (some_args "in.mov" false false) endless_env
                   models_on_disk) by (vm_compute; reflexivity).
  assert (Hall : ∀ i, Mat_empty (image (video endless_env i)) = false)
    by (intros i; reflexivity).
  split; [exact Hacc|]. split; [exact Hall|].
  exact (endless_source (some_args "in.mov" false false) endless_env 7
           models_on_disk Hacc Hall).
Defined.

Lemma writes_in_pull_order_witness :
  let args := some_args "in.mov" false true in
  let env := some_env 3 (Some (fresh_recorder true 2)) [] in
  accepted args env models_on_disk
  ∧ yields (video env) 3
  ∧ (0 < 3 ≤ size_max)%N
  ∧ (N.to_nat 3 < 4)%nat
  ∧ doMovie args = true
  ∧ sink_create env (sOutput args +:+ "/movie.mov") ".mov"
    = Some (fresh_recorder true 2)
  ∧ writes (trace (run args env 4 models_on_disk).2)
    = [mkMat 2 2 [1; 2; 3; 4]; mkMat 2 2 [1; 2; 3; 4]].
Proof.
  cbn zeta.
  assert (Hacc : accepted (some_args "in.mov" false true)
                   (some_env 3 (Some (fresh_recorder true 2)) [])
                   models_on_disk) by (vm_compute; reflexivity).
  assert (Hn : (0 < 3 ≤ size_max)%N) by (unfold size_max; lia).
  assert (Hfuel : (N.to_nat 3 < 4)%nat) by (cbn; lia).
  split; [exact Hacc|]. split; [apply clip_yields|]. split; [exact Hn|].
  split; [exact Hfuel|]. split; [reflexivity|]. split; [reflexivity|].
  exact (writes_in_pull_order (some_args "in.mov" false true)
           (some_env 3 (Some (fresh_recorder true 2)) []) 4 models_on_disk 3
           (fresh_recorder true 2) Hacc (clip_yields 3) Hn Hfuel eq_refl
           eq_refl).
Defined.

Section Opening.

Context {S : Type} `{!VideoSink S}.
Variable args : Args.
Variable env : Env S.

(** X12: when the creation of the sink succeeds, the sink is created, given
    the columns and rows of the first frame and opened with [begin], in
    this order and once, before the first call of [render]; its geometry is
    never set again, whatever the sizes of the later frames. *)
Theorem sink_opened_once fuel fs (k : S) :
  accepted args env fs →
  Mat_empty (image (video env 0%N)) = false →
  doMovie args = true →
  sink_create env (sOutput args +:+ "/movie.mov") ".mov" = Some k →
  ∃ pre post,
    trace (run args env fuel fs).2 =
      pre ++
      [EvSinkNew (sOutput args +:+ "/movie.mov") ".mov";
       EvSinkSetProperties (frame_cols (video env 0%N))
                           (frame_rows (video env 0%N));
       EvSinkBegin] ++ post
    ∧ count is_render_call pre = 0%nat
    ∧ count is_sink_open pre = 0%nat
    ∧ count is_sink_open post = 0%nat.
Proof.
  intros Hacc Hframe Hm Hk.
  destruct (run_started_forall args env (λ e, negb (is_sink_open e))
              (λ _ _, True) fuel fs)
    as (r & st & es & td & -> & Ht & Hq & Hend);
    try (reflexivity || assumption || done).
  { intros st _. eapply forallb_weaken; [|apply frame_events_frame]. kinds. }
  cbn [snd]. rewrite Ht.
  assert (Htd : count is_sink_open td = 0%nat).
  { destruct Hend as [(-> & _) | (k' & _ & _ & -> & _)]; [reflexivity|].
    apply (count_disjoint is_sink_open is_teardown);
      [kinds | apply teardown_events_teardown]. }
  unfold setup_events, open_events, configure_events, movie. cbn [window].
  rewrite Hm, Hk, <- !app_assoc.
  match goal with
  | |- ∃ pre post,
         ?a ++ ?b ++ ?c ++ ?d ++ ?e ++ ?f ++ ?g ++ (?x :: ?y) ++ ?rest = _
         ∧ _ =>
      exists (a ++ b ++ c ++ d ++ e ++ f ++ g), rest
  end.
  split; [rewrite <- !app_assoc; reflexivity|].
  rewrite !count_app, Htd, (count_none _ es Hq).
  destruct (doWindow args),
    (bool_decide (sOutput args +:+ "/movie.mov" ∈ fs ∖ {[probe args]}));
    split; try split; reflexivity.
Qed.

End Opening.

Lemma sink_opened_once_witness :
  let args := some_args "in.mov" true true in
  let env := some_env 2 (Some (fresh_recorder true 5))
                      [SinkThread; MainThread] in
  accepted args env models_on_disk
  ∧ Mat_empty (image (video env 0%N)) = false
  ∧ doMovie args = true
  ∧ sink_create env (sOutput args +:+ "/movie.mov") ".mov"
    = Some (fresh_recorder true 5)
  ∧ ∃ pre post,
      trace (run args env 3 models_on_disk).2 =
        pre ++
        [EvSinkNew "out/movie.mov" ".mov"; EvSinkSetProperties 2 2;
         EvSinkBegin] ++ post
      ∧ count is_sink_open post = 0%nat.
Proof.
  cbn zeta.
  assert (Hacc : accepted (some_args "in.mov" true true)
                   (some_env 2 (Some (fresh_recorder true 5))
                      [SinkThread; MainThread]) models_on_disk)
    by (vm_compute; reflexivity).
  split; [exact Hacc|]. split; [reflexivity|]. split; [reflexivity|].
  split; [reflexivity|].
  destruct (sink_opened_once (some_args "in.mov" true true)
              (some_env 2 (Some (fresh_recorder true 5))
                 [SinkThread; MainThread]) 3 models_on_disk
              (fresh_recorder true 5) Hacc eq_refl eq_refl eq_refl)
    as (pre & post & Ht & _ & _ & Hp).
  exists pre, post. split; [exact Ht | exact Hp].
Defined.
